(** * gymnasium.wrappers.jax_to_torch

    A shallow embedding of [gymnasium/wrappers/jax_to_torch.py]: the two
    [functools.singledispatch] converters [torch_to_jax] and [jax_to_torch]
    with their registered rules, and the [JaxToTorch] wrapper
    ([step], [reset], [render]).

    Python values are an inductive type with one constructor per runtime
    class the converters can tell apart; a call either returns a value or
    raises, which is the [result] type; the wrapped environment is stateful
    and is modelled by explicit state passing. *)

From Stdlib Require Import ZArith List String Bool Lia.
Import ListNotations.
Open Scope string_scope.
Open Scope Z_scope.

(** ** Exceptions and results *)

(** [Exception msg] is the bare [Exception] the module raises itself; the
    others are raised by Python or by the tensor runtimes. *)
Inductive exn : Type :=
| Exception (msg : string)
| TypeError
| ValueError
| RuntimeError
| AttributeError
| OverflowError
| BufferError.

Inductive result (A : Type) : Type :=
| Ok (a : A)
| Raise (e : exn).

Arguments Ok {A} a.
Arguments Raise {A} e.

Definition bind {A B : Type} (r : result A) (k : A -> result B) : result B :=
  match r with
  | Ok a => k a
  | Raise e => Raise e
  end.

Notation "x <- r ;; k" := (bind r (fun x => k))
  (at level 61, r at next level, right associativity).

Set Warnings "-register-all".

(** ** Python values *)

(** A Python [float] is kept as its IEEE-754 binary64 bit pattern; the only
    computation the model does on it is the rounding to binary32. *)
Definition pyfloat : Type := Z.

(** Instances of [numbers.Number] among the builtins ([bool] is a subclass of
    [int]). *)
Inductive number : Type :=
| NBool (b : bool)
| NInt (z : Z)
| NFloat (x : pyfloat)
| NComplex (re im : pyfloat).

(** An array: its dimensions, its elements in row-major order, and the
    device that holds its buffer.  A jax array is one; jax runs in its
    default configuration ([jax_enable_x64] off), in which no array has a
    64-bit dtype. *)
Record ndarray : Type := mk_ndarray {
  shape : list nat;
  elems : list number;
  placement : string
}.

(** A [torch.Tensor], dense and contiguous: its array, whether its dtype is
    one of the 64-bit ones ([int64], [float64], [complex128]), and its
    [requires_grad] flag. *)
Record tensor : Type := mk_tensor {
  storage :> ndarray;
  is_64bit : bool;
  requires_grad : bool
}.

(** [Device = Union[str, torch.device]] *)
Inductive Device : Type :=
| DeviceStr (s : string)
| TorchDevice (name : string).

Inductive key : Type :=
| KStr (s : string)
| KInt (z : Z).

(** Concrete classes registered under [abc.Mapping]: [dict],
    [collections.OrderedDict] and [types.MappingProxyType]. *)
Inductive mapping_class : Type :=
| Dict
| OrderedDict
| MappingProxyType.

(** Concrete sequence classes that are rebuilt from an iterable. *)
Inductive seq_class : Type :=
| PyList
| PyTuple.

(** Values are finite trees: a container that holds itself is not
    modelled.  [VMapping MappingProxyType items] is a [mappingproxy] over a
    mapping that has these items.  [mappingproxy()] also accepts an object
    that has [__getitem__] without being a mapping (a string, a tensor):
    [VProxy target] is such a proxy; it has no [items()]. *)
Inductive pyobject : Type :=
| VNone
| VNum (n : number)
| VTorch (t : tensor)                               (* torch.Tensor *)
| VJax (a : ndarray)                                (* jax.Array *)
| VStr (s : string)
| VMapping (cls : mapping_class) (items : list (key * pyobject))
| VNamedTuple (cls : string) (fields : list pyobject)  (* a class with _make *)
| VSeq (cls : seq_class) (elems : list pyobject)
| VObject (cls : string)                            (* any other class *)
| VProxy (target : pyobject).

(** [type(value).__module__ + "." + type(value).__qualname__] *)
Definition type_name (v : pyobject) : string :=
  match v with
  | VNone => "NoneType"
  | VNum (NBool _) => "bool"
  | VNum (NInt _) => "int"
  | VNum (NFloat _) => "float"
  | VNum (NComplex _ _) => "complex"
  | VTorch _ => "torch.Tensor"
  | VJax _ => "jaxlib.xla_extension.ArrayImpl"
  | VStr _ => "str"
  | VMapping Dict _ => "dict"
  | VMapping OrderedDict _ => "collections.OrderedDict"
  | VMapping MappingProxyType _ => "mappingproxy"
  | VNamedTuple cls _ => cls
  | VSeq PyList _ => "list"
  | VSeq PyTuple _ => "tuple"
  | VObject cls => cls
  | VProxy _ => "mappingproxy"
  end.

(** What [f"{type(value)}"] prints. *)
Definition type_repr (v : pyobject) : string :=
  "<class '" ++ type_name v ++ "'>".

(** ** The tensor runtimes *)

Definition jax_default_device : string := "cpu:0".

(** The binary64 pattern of the binary32 number nearest to [x], ties to
    even: what a [float32] array keeps of a Python float.  An infinity stays
    one, a NaN stays a NaN, and a float beyond the binary32 range becomes an
    infinity. *)
Definition float32 (x : pyfloat) : pyfloat :=
  let sign := Z.land x (2 ^ 63) in
  let e := Z.land (Z.shiftr x 52) 2047 in
  let m := Z.land x (2 ^ 52 - 1) in
  let inf := sign + 2047 * 2 ^ 52 in
  if e =? 2047 then
    if m =? 0 then inf
    else inf + Z.lor (Z.shiftl (Z.shiftr m 29) 29) (2 ^ 51)
  else
    (* the float is [mant * 2 ^ exp]; [last] is the weight of the last bit
       binary32 keeps of it *)
    let mant := if e =? 0 then m else m + 2 ^ 52 in
    let exp := if e =? 0 then -1074 else e - 1075 in
    let last := Z.max (Z.log2 mant + exp - 23) (-149) in
    let k := last - exp in
    let q := Z.shiftr mant k in
    let r := mant - Z.shiftl q k in
    let half := 2 ^ (k - 1) in
    let mant' := if (half <? r) || ((r =? half) && Z.odd q) then q + 1 else q in
    if mant' =? 0 then sign
    else
      let top := Z.log2 mant' + last in
      if 127 <? top then inf
      else sign + (top + 1023) * 2 ^ 52
           + (mant' * 2 ^ (52 - Z.log2 mant') - 2 ^ 52).

(** An integer cut to 32 bits, two's complement. *)
Definition int32 (z : Z) : Z := (z + 2 ^ 31) mod 2 ^ 32 - 2 ^ 31.

Definition in_int32 (z : Z) : bool := (- 2 ^ 31 <=? z) && (z <? 2 ^ 31).

(** An element brought to the 32-bit dtype of its kind. *)
Definition narrow (n : number) : number :=
  match n with
  | NBool b => NBool b
  | NInt z => NInt (int32 z)
  | NFloat x => NFloat (float32 x)
  | NComplex re im => NComplex (float32 re) (float32 im)
  end.

(** [jnp.array(value)] on a Python number: a zero-dimensional array of the
    default dtype of its kind ([bool], [int32], [float32], [complex64]).  An
    integer that does not fit [int32] raises [OverflowError]; a float is
    rounded. *)
Definition jnp_array (n : number) : result ndarray :=
  match n with
  | NInt z =>
      if in_int32 z then Ok (mk_ndarray [] [NInt z] jax_default_device)
      else Raise OverflowError
  | _ => Ok (mk_ndarray [] [narrow n] jax_default_device)
  end.

(** [jax.dlpack.from_dlpack(tensor)].  The tensor exports its buffer through
    [__dlpack__], which refuses a tensor that requires grad with
    [BufferError]; jax then reads the buffer where it lies and brings a
    64-bit dtype down to 32 bits.  (Tensors the interchange refuses for
    another reason are not modelled: a conjugate bit, a sparse layout,
    strides that leave gaps, a dtype or a device jax does not have.) *)
Definition jax_from_dlpack (t : tensor) : result ndarray :=
  if requires_grad t then Raise BufferError
  else
    Ok (mk_ndarray (shape t)
          (if is_64bit t then map narrow (elems t) else elems t)
          (placement t)).

(** [torch.utils.dlpack.from_dlpack(array)]: a tensor on the buffer of the
    array, with the dtype of the array and no grad.  (The array is concrete,
    on one device, and of a dtype torch has.) *)
Definition torch_from_dlpack (a : ndarray) : tensor :=
  mk_tensor (mk_ndarray (shape a) (elems a) (placement a)) false false.

Definition device_name (d : Device) : string :=
  match d with
  | DeviceStr s => s
  | TorchDevice name => name
  end.

(** [tensor.to(device=device)] *)
Definition tensor_to (t : tensor) (d : Device) : tensor :=
  mk_tensor (mk_ndarray (shape t) (elems t) (device_name d))
    (is_64bit t) (requires_grad t).

(** Truth value of [device] in [if device:]: [None] and the empty string are
    false, a [torch.device] object is always true. *)
Definition device_truth (device : option Device) : bool :=
  match device with
  | None => false
  | Some (DeviceStr s) => negb (String.eqb s "")
  | Some (TorchDevice _) => true
  end.

(** ** Generator expressions and constructors *)

(** A generator is the suspended sequence of the outcomes its elements will
    yield.  [consume] is what [list(gen)], [tuple(gen)] and [_make(gen)] do:
    they take the elements in order and stop at the first one that raises. *)
Fixpoint consume (gen : list (result pyobject)) : result (list pyobject) :=
  match gen with
  | [] => Ok []
  | r :: gen' =>
      x <- r ;;
      xs <- consume gen' ;;
      Ok (x :: xs)
  end.

Definition key_eqb (a b : key) : bool :=
  match a, b with
  | KStr s, KStr s' => String.eqb s s'
  | KInt z, KInt z' => Z.eqb z z'
  | _, _ => false
  end.

(** [d[k] = v] on a dict kept in insertion order. *)
Fixpoint dict_set (k : key) (v : pyobject) (d : list (key * pyobject))
  : list (key * pyobject) :=
  match d with
  | [] => [(k, v)]
  | (k', v') :: d' =>
      if key_eqb k k' then (k, v) :: d' else (k', v') :: dict_set k v d'
  end.

Definition is_str_key (k : key) : bool :=
  match k with
  | KStr _ => true
  | KInt _ => false
  end.

(** [mappingproxy(mapping)]: the argument must have [__getitem__] and be
    neither a list nor a tuple.  A proxy over a proxy shows what the inner
    one shows and is kept as such.  (An object of another class is taken to
    have no [__getitem__].) *)
Definition mappingproxy_new (mapping : pyobject) : result pyobject :=
  match mapping with
  | VMapping _ items => Ok (VMapping MappingProxyType items)
  | VStr _ | VTorch _ | VJax _ => Ok (VProxy mapping)
  | VProxy target => Ok (VProxy target)
  | VNone | VNum _ | VNamedTuple _ _ | VSeq _ _ | VObject _ => Raise TypeError
  end.

(** [cls( **kwargs )], the keywords being the items of a dict with any keys.
    [dict] checks that every keyword is a string and then holds the
    keywords; [OrderedDict] holds them without a check; [mappingproxy] has
    the one parameter [mapping] and takes the keywords as its arguments. *)
Definition call_kwargs (cls : mapping_class) (kwargs : list (key * pyobject))
  : result pyobject :=
  match cls with
  | Dict =>
      if forallb (fun kv => is_str_key (fst kv)) kwargs
      then Ok (VMapping Dict kwargs)
      else Raise TypeError
  | OrderedDict => Ok (VMapping OrderedDict kwargs)
  | MappingProxyType =>
      match kwargs with
      | [(k, mapping)] =>
          if key_eqb k (KStr "mapping") then mappingproxy_new mapping
          else Raise TypeError
      | _ => Raise TypeError
      end
  end.

(** [hasattr(value, "_make")] *)
Definition hasattr_make (v : pyobject) : bool :=
  match v with
  | VNamedTuple _ _ => true
  | _ => false
  end.

(** [type(value)._make(gen)]: the namedtuple classmethod builds the tuple from
    the iterable; its length check cannot fail here, the generator having one
    element per field of [value]. *)
Definition type_make (v : pyobject) (gen : option (list (result pyobject)))
  : result pyobject :=
  match v, gen with
  | VNamedTuple cls _, Some g => xs <- consume g ;; Ok (VNamedTuple cls xs)
  | _, _ => Raise AttributeError
  end.

(** [type(value)(gen)].  [list] and [tuple] consume the generator.  [str]
    does not iterate its argument: [str(gen)] is [repr(gen)], written with
    the qualified name [qualname] of the generator expression (the address
    that follows in CPython is left out).  The tensor classes and a
    namedtuple class reject a generator argument. *)
Definition type_call (qualname : string) (v : pyobject)
  (gen : option (list (result pyobject))) : result pyobject :=
  match v, gen with
  | VSeq cls _, Some g => xs <- consume g ;; Ok (VSeq cls xs)
  | VStr _, _ => Ok (VStr ("<generator object " ++ qualname ++ ">"))
  | _, _ => Raise TypeError
  end.

(** ** torch_to_jax *)

Section TorchToJaxRules.

(** The dispatcher the rules call back into. *)
Variable torch_to_jax : pyobject -> result pyobject.

(** [raise Exception(f"No known conversion for Torch type ...")] *)
Definition torch_to_jax_default (value : pyobject) : result pyobject :=
  Raise (Exception ("No known conversion for Torch type (" ++
    type_repr value ++ ") to Jax registered. Report as issue on github.")).

Definition _number_torch_to_jax (value : number) : result pyobject :=
  a <- jnp_array value ;; Ok (VJax a).

Definition _tensor_torch_to_jax (value : tensor) : result pyobject :=
  a <- jax_from_dlpack value ;; Ok (VJax a).

(** [{k: torch_to_jax(v) for k, v in value.items()}], filled in order. *)
Fixpoint torch_to_jax_items (items d : list (key * pyobject))
  : result (list (key * pyobject)) :=
  match items with
  | [] => Ok d
  | (k, v) :: items' =>
      v' <- torch_to_jax v ;;
      torch_to_jax_items items' (dict_set k v' d)
  end.

Definition _mapping_torch_to_jax (cls : mapping_class)
  (items : list (key * pyobject)) : result pyobject :=
  kwargs <- torch_to_jax_items items [] ;;
  call_kwargs cls kwargs.

(** [(torch_to_jax(v) for v in value)].  Only the elements of a sequence or
    of a namedtuple are materialised; over a string or a tensor the
    generator stays suspended ([None]), and no constructor advances it. *)
Definition torch_to_jax_genexpr (value : pyobject)
  : option (list (result pyobject)) :=
  match value with
  | VNamedTuple _ xs | VSeq _ xs => Some (map torch_to_jax xs)
  | _ => None
  end.

Definition _iterable_torch_to_jax (value : pyobject) : result pyobject :=
  if hasattr_make value then
    type_make value (torch_to_jax_genexpr value)
  else
    type_call "_iterable_torch_to_jax.<locals>.<genexpr>" value
      (torch_to_jax_genexpr value).

Definition _none_torch_to_jax (value : pyobject) : result pyobject :=
  Ok value.

End TorchToJaxRules.

(** [functools.singledispatch] on [type(value)]: [numbers.Number],
    [torch.Tensor], [abc.Mapping], [abc.Iterable], [NoneType], and the
    undecorated function for everything else.  A mapping is also iterable and
    goes to the more specific [abc.Mapping] rule; a jax array has no rule of
    its own here and is iterable.  A proxy over an object that is not a
    mapping goes to the [abc.Mapping] rule by its class, where [value.items()]
    raises [AttributeError]. *)
Fixpoint torch_to_jax (value : pyobject) : result pyobject :=
  match value with
  | VNum n => _number_torch_to_jax n
  | VTorch t => _tensor_torch_to_jax t
  | VMapping cls items => _mapping_torch_to_jax torch_to_jax cls items
  | VProxy _ => Raise AttributeError
  | VNamedTuple _ _ | VSeq _ _ | VStr _ | VJax _ =>
      _iterable_torch_to_jax torch_to_jax value
  | VNone => _none_torch_to_jax value
  | VObject _ => torch_to_jax_default value
  end.

(** ** jax_to_torch *)

(** Which rule [functools.singledispatch] picks for the runtime class of a
    jax array: the one registered for [jax.Array], or, since jax 0.6.0, the
    one registered for [abc.Iterable] (Gymnasium issue 1360). *)
Inductive array_dispatch : Type :=
| ArrayRule
| IterableRule.

Section JaxToTorchRules.

Variable jax_to_torch : pyobject -> option Device -> result pyobject.

(** [raise Exception(f"No known conversion for Jax type ...")] *)
Definition jax_to_torch_default (value : pyobject) (device : option Device)
  : result pyobject :=
  Raise (Exception ("No known conversion for Jax type (" ++
    type_repr value ++ ") to PyTorch registered. Report as issue on github.")).

(** The [assert] on the two dlpack modules holds once the imports at the top
    of the module have succeeded. *)
Definition _devicearray_jax_to_torch (value : ndarray)
  (device : option Device) : result pyobject :=
  let tensor := torch_from_dlpack value in
  match device with
  | Some d =>
      if device_truth device then Ok (VTorch (tensor_to tensor d))
      else Ok (VTorch tensor)
  | None => Ok (VTorch tensor)
  end.

(** [{k: jax_to_torch(v, device) for k, v in value.items()}] *)
Fixpoint jax_to_torch_items (device : option Device)
  (items d : list (key * pyobject)) : result (list (key * pyobject)) :=
  match items with
  | [] => Ok d
  | (k, v) :: items' =>
      v' <- jax_to_torch v device ;;
      jax_to_torch_items device items' (dict_set k v' d)
  end.

Definition _jax_mapping_to_torch (cls : mapping_class)
  (items : list (key * pyobject)) (device : option Device)
  : result pyobject :=
  kwargs <- jax_to_torch_items device items [] ;;
  call_kwargs cls kwargs.

(** [(jax_to_torch(v, device) for v in value)] *)
Definition jax_to_torch_genexpr (value : pyobject) (device : option Device)
  : option (list (result pyobject)) :=
  match value with
  | VNamedTuple _ xs | VSeq _ xs =>
      Some (map (fun v => jax_to_torch v device) xs)
  | _ => None
  end.

(** The first branch is the guard [isinstance(value, jax.Array)]; it calls
    [_devicearray_jax_to_torch(value)] with one argument, so [device] takes
    its default [None] there. *)
Definition _jax_iterable_to_torch (value : pyobject)
  (device : option Device) : result pyobject :=
  match value with
  | VJax a => _devicearray_jax_to_torch a None
  | _ =>
      if hasattr_make value then
        type_make value (jax_to_torch_genexpr value device)
      else
        type_call "_jax_iterable_to_torch.<locals>.<genexpr>" value
          (jax_to_torch_genexpr value device)
  end.

Definition _none_jax_to_torch (value : pyobject) (device : option Device)
  : result pyobject :=
  Ok value.

End JaxToTorchRules.

(** [functools.singledispatch] on [type(value)]: [jax.Array], [abc.Mapping],
    [abc.Iterable], [NoneType], and the undecorated function for everything
    else.  No rule is registered for [numbers.Number], and a Python number is
    not iterable; a torch tensor is iterable.  A proxy over an object that is
    not a mapping fails in the [abc.Mapping] rule, at [value.items()]. *)
Fixpoint jax_to_torch (dispatch : array_dispatch) (value : pyobject)
  (device : option Device) : result pyobject :=
  match value with
  | VJax a =>
      match dispatch with
      | ArrayRule => _devicearray_jax_to_torch a device
      | IterableRule =>
          _jax_iterable_to_torch (jax_to_torch dispatch) value device
      end
  | VMapping cls items =>
      _jax_mapping_to_torch (jax_to_torch dispatch) cls items device
  | VProxy _ => Raise AttributeError
  | VNamedTuple _ _ | VSeq _ _ | VStr _ | VTorch _ =>
      _jax_iterable_to_torch (jax_to_torch dispatch) value device
  | VNone => _none_jax_to_torch value device
  | VNum _ | VObject _ => jax_to_torch_default value device
  end.

(** ** Builtins used by the wrapper *)

Definition number_truth (n : number) : bool :=
  match n with
  | NBool b => b
  | NInt z => negb (z =? 0)
  | NFloat x => negb (Z.land x (2 ^ 63 - 1) =? 0)
  | NComplex re im =>
      negb (Z.land re (2 ^ 63 - 1) =? 0) || negb (Z.land im (2 ^ 63 - 1) =? 0)
  end.

(** [bool(value)], also the test of [if value:].  A tensor has a truth value
    only when it holds exactly one element; an object of a class that defines
    neither [__bool__] nor [__len__] is true; a proxy is true when the
    length of its target is not zero. *)
Definition bool_ (value : pyobject) : result bool :=
  match value with
  | VNone => Ok false
  | VNum n => Ok (number_truth n)
  | VStr s => Ok (negb (String.eqb s ""))
  | VMapping _ items => Ok (negb (Nat.eqb (List.length items) 0))
  | VNamedTuple _ xs | VSeq _ xs => Ok (negb (Nat.eqb (List.length xs) 0))
  | VJax a =>
      match elems a with
      | [n] => Ok (number_truth n)
      | _ => Raise ValueError
      end
  | VTorch t =>
      match elems t with
      | [n] => Ok (number_truth n)
      | _ => Raise RuntimeError
      end
  | VObject _ => Ok true
  | VProxy target =>
      match target with
      | VStr s => Ok (negb (String.eqb s ""))
      | VJax a =>
          match shape a with
          | [] => Raise TypeError
          | n :: _ => Ok (negb (Nat.eqb n 0))
          end
      | VTorch t =>
          match shape t with
          | [] => Raise TypeError
          | n :: _ => Ok (negb (Nat.eqb n 0))
          end
      | _ => Raise TypeError
      end
  end.

(** ** The wrapper *)

(** The wrapped environment, with its state of type [S] passed explicitly.
    [step] returns the 5-tuple that the wrapper unpacks into
    [obs, reward, terminated, truncated, info]; [seed] is [int | None];
    [options] is [VNone] when absent. *)
Record Env (S : Type) : Type := mk_Env {
  env_step : pyobject -> S ->
    result (pyobject * pyobject * pyobject * pyobject * pyobject) * S;
  env_reset : option Z -> pyobject -> S -> result pyobject * S;
  env_render : S -> result pyobject * S
}.

Arguments env_step {S} _ _ _.
Arguments env_reset {S} _ _ _ _.
Arguments env_render {S} _ _.

Record JaxToTorch (S : Type) : Type := mk_JaxToTorch {
  env : Env S;
  device : option Device
}.

Arguments env {S} _.
Arguments device {S} _.
Arguments mk_JaxToTorch {S} _ _.

Section Wrapper.

Variable S : Type.

(** The rule the installed jax version dispatches its arrays to. *)
Variable dispatch : array_dispatch.

(** The builtin [float()].  It rounds integers to binary64, parses strings
    and calls [__float__] of the tensor runtimes; none of that is carried by
    the model, which takes the builtin as given. *)
Variable float_ : pyobject -> result pyfloat.

Definition step (self : JaxToTorch S) (action : pyobject) (st : S)
  : result pyobject * S :=
  match torch_to_jax action with
  | Raise e => (Raise e, st)
  | Ok jax_action =>
      match env_step (env self) jax_action st with
      | (Raise e, st') => (Raise e, st')
      | (Ok (obs, reward, terminated, truncated, info), st') =>
          (obs' <- jax_to_torch dispatch obs (device self) ;;
           reward' <- float_ reward ;;
           terminated' <- bool_ terminated ;;
           truncated' <- bool_ truncated ;;
           info' <- jax_to_torch dispatch info (device self) ;;
           Ok (VSeq PyTuple [obs'; VNum (NFloat reward');
                             VNum (NBool terminated');
                             VNum (NBool truncated'); info']),
           st')
      end
  end.

Definition reset (self : JaxToTorch S) (seed : option Z)
  (options : pyobject) (st : S) : result pyobject * S :=
  match bool_ options with
  | Raise e => (Raise e, st)
  | Ok b =>
      match (if b then torch_to_jax options else Ok options) with
      | Raise e => (Raise e, st)
      | Ok options' =>
          match env_reset (env self) seed options' st with
          | (Raise e, st') => (Raise e, st')
          | (Ok r, st') => (jax_to_torch dispatch r (device self), st')
          end
      end
  end.

Definition render (self : JaxToTorch S) (st : S) : result pyobject * S :=
  match env_render (env self) st with
  | (Raise e, st') => (Raise e, st')
  | (Ok r, st') => (jax_to_torch dispatch r None, st')
  end.

End Wrapper.

Arguments step {S} dispatch float_ self action st.
Arguments reset {S} dispatch self seed options st.
Arguments render {S} dispatch self st.

(** ** The recognised shapes *)

(** The runtime tests behind the six shapes of the dispatch table. *)
Definition is_none (v : pyobject) : bool :=
  match v with VNone => true | _ => false end.

(** [isinstance(value, numbers.Number)] *)
Definition is_number (v : pyobject) : bool :=
  match v with VNum _ => true | _ => false end.

(** [isinstance(value, torch.Tensor)] or [isinstance(value, jax.Array)] *)
Definition is_native_tensor (v : pyobject) : bool :=
  match v with VTorch _ | VJax _ => true | _ => false end.

(** [isinstance(value, abc.Mapping)] *)
Definition is_mapping (v : pyobject) : bool :=
  match v with VMapping _ _ | VProxy _ => true | _ => false end.

(** [isinstance(value, abc.Iterable)] *)
Definition is_iterable (v : pyobject) : bool :=
  match v with
  | VStr _ | VMapping _ _ | VNamedTuple _ _ | VSeq _ _ | VTorch _ | VJax _
  | VProxy _ => true
  | VNone | VNum _ | VObject _ => false
  end.

Definition recognized_shape (v : pyobject) : bool :=
  is_none v || is_number v || is_native_tensor v || is_mapping v ||
  hasattr_make v || is_iterable v.

(** [names msg ty]: the text [ty] occurs in the message [msg]. *)
Definition names (msg ty : string) : Prop :=
  exists pre post : string, msg = pre ++ ty ++ post.

(** Values on which a converter returns: [leaf] tells which numbers and
    tensors it converts; a mapping must be a dict with string keys or an
    [OrderedDict]. *)
Section Supported.

Variable leaf : pyobject -> bool.

Fixpoint supported (v : pyobject) : bool :=
  match v with
  | VNone | VStr _ => true
  | VNum _ | VTorch _ | VJax _ => leaf v
  | VMapping cls items =>
      match cls with
      | Dict =>
          forallb (fun kv : key * pyobject =>
                     let (k, x) := kv in is_str_key k && supported x) items
      | OrderedDict =>
          forallb (fun kv : key * pyobject =>
                     let (k, x) := kv in supported x) items
      | MappingProxyType => false
      end
  | VNamedTuple _ xs | VSeq _ xs => forallb supported xs
  | VObject _ | VProxy _ => false
  end.

End Supported.

(** The numbers and tensors [torch_to_jax] converts: an integer must fit
    [int32], a tensor must not require grad. *)
Definition torch_leaf (v : pyobject) : bool :=
  match v with
  | VNum (NInt z) => in_int32 z
  | VNum _ => true
  | VTorch t => negb (requires_grad t)
  | _ => false
  end.

Definition jax_leaf (v : pyobject) : bool :=
  match v with VJax _ => true | _ => false end.

(** Classes whose constructor takes the items of the mapping as keywords. *)
Definition keyword_items (cls : mapping_class) : bool :=
  match cls with
  | Dict | OrderedDict => true
  | MappingProxyType => false
  end.

(** ** Example environments *)

(** [float()] on the arguments the examples give it: a float is returned as
    it is, a tensor holding one float gives that float. *)
Definition float_of_scalar (value : pyobject) : result pyfloat :=
  match value with
  | VNum (NFloat x) => Ok x
  | VJax a =>
      match elems a with
      | [NFloat x] => Ok x
      | _ => Raise TypeError
      end
  | VTorch t =>
      match elems t with
      | [NFloat x] => Ok x
      | _ => Raise TypeError
      end
  | _ => Raise TypeError
  end.

(** binary64 patterns of [1.0], [2.0] and [0.5] *)
Definition f_one : pyfloat := 4607182418800017408.
Definition f_two : pyfloat := 4611686018427387904.
Definition f_half : pyfloat := 4602678819172646912.

(** A stateless jax environment: [step] echoes the action as observation with
    tensor-typed reward and flags, [reset] returns a position and its options
    as info, [render] returns a frame as a jax array. *)
Definition echo_env : Env unit :=
  mk_Env unit
    (fun action st =>
       (Ok (action,
            VJax (mk_ndarray [] [NFloat f_one] jax_default_device),
            VJax (mk_ndarray [] [NBool true] jax_default_device),
            VJax (mk_ndarray [1%nat] [NBool false] jax_default_device),
            VMapping Dict []), st))
    (fun seed options st =>
       (Ok (VSeq PyTuple
              [VMapping Dict
                 [(KStr "pos",
                   VJax (mk_ndarray [2%nat] [NFloat f_one; NFloat f_two]
                           jax_default_device))];
               options]), st))
    (fun st =>
       (Ok (VJax (mk_ndarray [1%nat] [NFloat f_half] jax_default_device)),
        st)).

(** A jax environment whose state is the list of the arguments its [reset]
    has been called with. *)
Definition recording_env : Env (list (option Z * pyobject)) :=
  mk_Env (list (option Z * pyobject))
    (fun action st =>
       (Ok (action,
            VNum (NFloat f_one), VNum (NBool false), VNum (NBool false),
            VMapping Dict []), st))
    (fun seed options st =>
       (Ok (VSeq PyTuple
              [VJax (mk_ndarray [2%nat] [NFloat f_one; NFloat f_two]
                       jax_default_device);
               VMapping Dict []]),
        (st ++ [(seed, options)])%list))
    (fun st => (Ok VNone, st)).

(** ** Structural induction on values *)

Section PyobjectInd.

Variable P : pyobject -> Prop.
Hypothesis HNone : P VNone.
Hypothesis HNum : forall n, P (VNum n).
Hypothesis HTorch : forall t, P (VTorch t).
Hypothesis HJax : forall a, P (VJax a).
Hypothesis HStr : forall s, P (VStr s).
Hypothesis HMapping : forall cls items,
  Forall (fun kv => P (snd kv)) items -> P (VMapping cls items).
Hypothesis HNamedTuple : forall cls xs, Forall P xs -> P (VNamedTuple cls xs).
Hypothesis HSeq : forall cls xs, Forall P xs -> P (VSeq cls xs).
Hypothesis HObject : forall cls, P (VObject cls).
Hypothesis HProxy : forall target, P target -> P (VProxy target).

Fixpoint pyobject_nested_ind (v : pyobject) : P v :=
  match v with
  | VNone => HNone
  | VNum n => HNum n
  | VTorch t => HTorch t
  | VJax a => HJax a
  | VStr s => HStr s
  | VMapping cls items =>
      HMapping cls items
        ((fix go (l : list (key * pyobject))
            : Forall (fun kv => P (snd kv)) l :=
            match l with
            | [] => Forall_nil _
            | (k, x) :: l' =>
                Forall_cons (k, x) (pyobject_nested_ind x) (go l')
            end) items)
  | VNamedTuple cls xs =>
      HNamedTuple cls xs
        ((fix go (l : list pyobject) : Forall P l :=
            match l with
            | [] => Forall_nil _
            | x :: l' => Forall_cons x (pyobject_nested_ind x) (go l')
            end) xs)
  | VSeq cls xs =>
      HSeq cls xs
        ((fix go (l : list pyobject) : Forall P l :=
            match l with
            | [] => Forall_nil _
            | x :: l' => Forall_cons x (pyobject_nested_ind x) (go l')
            end) xs)
  | VObject cls => HObject cls
  | VProxy target => HProxy target (pyobject_nested_ind target)
  end.

End PyobjectInd.

(** ** Structures the converters rebuild exactly *)

(** No key occurs twice, as in the items of a dict. *)
Fixpoint nodup_keys (ks : list key) : bool :=
  match ks with
  | [] => true
  | k :: ks' => negb (existsb (key_eqb k) ks') && nodup_keys ks'
  end.

(** Nested containers over the leaves accepted by [leaf]: dict-like mappings
    with unique string keys, namedtuples, lists and tuples. *)
Section StructureOf.

Variable leaf : pyobject -> bool.

Fixpoint structure_of (v : pyobject) : bool :=
  match v with
  | VMapping cls items =>
      match cls with
      | Dict | OrderedDict =>
          nodup_keys (map fst items) &&
          forallb (fun kv : key * pyobject =>
                     let (k, x) := kv in is_str_key k && structure_of x) items
      | MappingProxyType => false
      end
  | VNamedTuple _ xs | VSeq _ xs => forallb structure_of xs
  | VNone | VNum _ | VTorch _ | VJax _ | VStr _ | VObject _ | VProxy _ =>
      leaf v
  end.

End StructureOf.

Definition none_or_jax (v : pyobject) : bool :=
  is_none v || jax_leaf v.

(** The same structure with every jax array replaced by the torch handle on
    its buffer. *)
Fixpoint as_torch (v : pyobject) : pyobject :=
  match v with
  | VJax a => VTorch (torch_from_dlpack a)
  | VMapping cls items =>
      VMapping cls
        (map (fun kv : key * pyobject => let (k, x) := kv in (k, as_torch x))
           items)
  | VNamedTuple cls xs => VNamedTuple cls (map as_torch xs)
  | VSeq cls xs => VSeq cls (map as_torch xs)
  | VNone | VNum _ | VTorch _ | VStr _ | VObject _ | VProxy _ => v
  end.

(** A jax environment whose [info] holds a plain Python integer. *)
Definition counting_env : Env unit :=
  mk_Env unit
    (fun action st =>
       (Ok (action,
            VNum (NFloat f_one), VNum (NBool false), VNum (NBool false),
            VMapping Dict [(KStr "steps", VNum (NInt 3))]), st))
    (fun seed options st => (Ok (VSeq PyTuple [VNone; VMapping Dict []]), st))
    (fun st => (Ok VNone, st)).

(** * Properties *)

Open Scope list_scope.

(** ** Generators and dict comprehensions *)

Lemma consume_map_Forall2 (f : pyobject -> result pyobject) xs ys :
  consume (map f xs) = Ok ys <-> Forall2 (fun x y => f x = Ok y) xs ys.
Proof.
  revert ys. induction xs as [|x xs IH]; intros ys; simpl.
  - split.
    + intros H. injection H as <-. constructor.
    + intros H. inversion H. reflexivity.
  - split.
    + destruct (f x) as [y|e] eqn:Hx; simpl; [|discriminate].
      destruct (consume (map f xs)) as [ys'|e] eqn:Hxs; simpl; [|discriminate].
      intros H. injection H as <-. constructor; [exact Hx|].
      apply IH. reflexivity.
    + intros H. inversion H as [|x0 y l l' Hx Hrest]; subst.
      rewrite Hx. simpl. apply IH in Hrest. rewrite Hrest. reflexivity.
Qed.

Lemma key_eqb_eq (a b : key) : key_eqb a b = true <-> a = b.
Proof.
  destruct a, b; simpl; split; intros H; try discriminate; try congruence.
  - apply String.eqb_eq in H. congruence.
  - injection H as ->. apply String.eqb_refl.
  - apply Z.eqb_eq in H. congruence.
  - injection H as ->. apply Z.eqb_refl.
Qed.

Lemma dict_set_fresh k v d :
  ~ In k (map fst d) -> dict_set k v d = d ++ [(k, v)].
Proof.
  induction d as [|[k' v'] d IH]; simpl; intros Hk; [reflexivity|].
  destruct (key_eqb k k') eqn:E.
  - apply key_eqb_eq in E. subst. exfalso. apply Hk. now left.
  - rewrite IH; [reflexivity|]. intros Hin. apply Hk. now right.
Qed.

Lemma jax_to_torch_items_eq j device items d :
  jax_to_torch_items j device items d
  = torch_to_jax_items (fun v => j v device) items d.
Proof.
  revert d. induction items as [|[k v] items IH]; intros d; simpl.
  - reflexivity.
  - destruct (j v device); simpl; [apply IH|reflexivity].
Qed.


Lemma dict_set_str_keys_eq k v d :
  forallb (fun kv : key * pyobject => is_str_key (fst kv)) (dict_set k v d)
  = is_str_key k &&
    forallb (fun kv : key * pyobject => is_str_key (fst kv)) d.
Proof.
  induction d as [|[k' v'] d IH]; simpl.
  - reflexivity.
  - destruct (key_eqb k k') eqn:E; simpl.
    + apply key_eqb_eq in E. subst k'.
      destruct (is_str_key k); reflexivity.
    + rewrite IH. destruct (is_str_key k), (is_str_key k'); reflexivity.
Qed.

Lemma items_str_keys (f : pyobject -> result pyobject) items d r :
  torch_to_jax_items f items d = Ok r ->
  forallb (fun kv : key * pyobject => is_str_key (fst kv)) r
  = forallb (fun kv : key * pyobject => is_str_key (fst kv)) d &&
    forallb (fun kv : key * pyobject => is_str_key (fst kv)) items.
Proof.
  revert d. induction items as [|[k v] items IH]; intros d H; simpl in *.
  - injection H as <-. now rewrite andb_true_r.
  - destruct (f v) as [v'|e]; simpl in H; [|discriminate].
    rewrite (IH _ H), dict_set_str_keys_eq.
    destruct (is_str_key k), (forallb _ d), (forallb _ items); reflexivity.
Qed.

(** A comprehension whose values all convert returns. *)
Lemma items_total (f : pyobject -> result pyobject) items :
  Forall (fun kv => exists y, f (snd kv) = Ok y) items ->
  forall d, exists r, torch_to_jax_items f items d = Ok r.
Proof.
  induction 1 as [|[k v] items [y Hy] _ IH]; intros d; simpl.
  - now exists d.
  - simpl in Hy. rewrite Hy. simpl. apply IH.
Qed.

Lemma nodup_keys_NoDup ks : nodup_keys ks = true -> NoDup ks.
Proof.
  induction ks as [|k ks IH]; simpl; intros H; [constructor|].
  apply andb_true_iff in H as [Hk Hks]. constructor; [|apply IH; exact Hks].
  intros Hin. apply negb_true_iff in Hk.
  assert (E : existsb (key_eqb k) ks = true).
  { apply existsb_exists. exists k. split; [exact Hin|].
    apply key_eqb_eq. reflexivity. }
  rewrite E in Hk. discriminate.
Qed.

Lemma NoDup_move_key (k : key) l m :
  NoDup (l ++ k :: m) -> NoDup ((l ++ [k]) ++ m).
Proof.
  intros Hnd. rewrite <- app_assoc. simpl.
  apply NoDup_remove_1 in Hnd as Hnd'. apply NoDup_remove_2 in Hnd as Hk.
  clear Hnd. induction l as [|a l IHl]; simpl in *.
  - constructor; assumption.
  - inversion Hnd' as [|? ? Ha Hl]; subst. constructor.
    + intros Hin. apply Ha. apply in_app_or in Hin as [Hin|[->|Hin]].
      * apply in_or_app. now left.
      * exfalso. apply Hk. now left.
      * apply in_or_app. now right.
    + apply IHl; [assumption|]. intros Hin. apply Hk. now right.
Qed.

(** With unique keys, a comprehension whose values convert one by one to the
    values of [items'] under the same keys returns [items']. *)
Lemma items_Forall2 (f : pyobject -> result pyobject) items items' :
  Forall2 (fun kv kv' => fst kv = fst kv' /\ f (snd kv) = Ok (snd kv'))
    items items' ->
  forall d, NoDup (map fst d ++ map fst items) ->
  torch_to_jax_items f items d = Ok (d ++ items').
Proof.
  induction 1 as [|[k v] [k' v'] items items' [Hk Hv] _ IH];
    intros d Hnd; simpl in *.
  - now rewrite app_nil_r.
  - subst k'. rewrite Hv. simpl.
    assert (Hfresh : ~ In k (map fst d)).
    { intros Hin. apply NoDup_remove_2 in Hnd. apply Hnd.
      apply in_or_app. now left. }
    rewrite (dict_set_fresh k v' d Hfresh), IH.
    + rewrite <- app_assoc. reflexivity.
    + rewrite map_app. simpl. apply NoDup_move_key. exact Hnd.
Qed.


Lemma consume_total (f : pyobject -> result pyobject) xs :
  Forall (fun x => exists y, f x = Ok y) xs ->
  exists ys, consume (map f xs) = Ok ys.
Proof.
  induction 1 as [|x xs [y Hy] _ [ys IH]]; simpl.
  - now exists [].
  - rewrite Hy, IH. simpl. now exists (y :: ys).
Qed.

(** ** Scalar numbers *)

Lemma int32_in_range z : in_int32 z = true -> int32 z = z.
Proof.
  unfold in_int32, int32. intros H. apply andb_true_iff in H as [Hlo Hhi].
  apply Z.leb_le in Hlo. apply Z.ltb_lt in Hhi.
  rewrite Z.mod_small; lia.
Qed.

(** Where the two converters send a plain Python number: [torch_to_jax] to
    its [numbers.Number] rule, which wraps it into a zero-dimensional jax
    array holding the number at 32 bits, or raises [OverflowError] on an
    integer beyond [int32]; [jax_to_torch], which registers no such rule, to
    the undecorated function. *)
Lemma number_conversion (n : number) :
  (torch_leaf (VNum n) = true ->
   exists a, torch_to_jax (VNum n) = Ok (VJax a) /\
             shape a = [] /\ elems a = [narrow n]) /\
  (torch_leaf (VNum n) = false ->
   torch_to_jax (VNum n) = Raise OverflowError) /\
  (forall dispatch device,
     jax_to_torch dispatch (VNum n) device
     = Raise (Exception ("No known conversion for Jax type (" ++
         type_repr (VNum n) ++
         ") to PyTorch registered. Report as issue on github.")%string)).
Proof.
  split; [|split].
  - destruct n as [b|z|x|re im]; simpl; intros H;
      try (eexists; repeat split; reflexivity).
    unfold _number_torch_to_jax, jnp_array. rewrite H. simpl.
    eexists. repeat split. simpl. now rewrite int32_in_range.
  - destruct n as [b|z|x|re im]; simpl; intros H; try discriminate.
    unfold _number_torch_to_jax, jnp_array. rewrite H. reflexivity.
  - intros dispatch device. reflexivity.
Qed.

(** C1.  The two directions are not symmetric on scalars:
    [torch_to_jax(3)] returns a zero-dimensional jax array, while
    [jax_to_torch(3)] raises instead of returning a zero-dimensional torch
    tensor. *)
Theorem number_jax_to_torch_raises :
  (exists a, torch_to_jax (VNum (NInt 3)) = Ok (VJax a) /\ shape a = []) /\
  jax_to_torch ArrayRule (VNum (NInt 3)) None
  = Raise (Exception
      "No known conversion for Jax type (<class 'int'>) to PyTorch registered. Report as issue on github.")
  /\ ~ (exists t, jax_to_torch ArrayRule (VNum (NInt 3)) None = Ok (VTorch t)
                  /\ shape t = []).
Proof.
  split; [eexists; split; reflexivity|].
  split; [reflexivity|].
  intros [t [H _]]. discriminate H.
Qed.

(** ** Tensor leaves *)

Lemma devicearray_returns_tensor a device :
  exists t, _devicearray_jax_to_torch a device = Ok (VTorch t) /\
            shape t = shape a /\ elems t = elems a /\
            is_64bit t = false /\ requires_grad t = false.
Proof.
  unfold _devicearray_jax_to_torch.
  destruct device as [d|]; [destruct (device_truth (Some d))|];
    eexists; repeat split.
Qed.

Lemma jax_to_torch_array dispatch a device :
  jax_to_torch dispatch (VJax a) device
  = _devicearray_jax_to_torch a
      (match dispatch with ArrayRule => device | IterableRule => None end).
Proof. destruct dispatch; reflexivity. Qed.

Lemma tensor_leaf_returns dispatch a device :
  exists t, jax_to_torch dispatch (VJax a) device = Ok (VTorch t) /\
            shape t = shape a /\ elems t = elems a /\
            is_64bit t = false /\ requires_grad t = false.
Proof.
  rewrite jax_to_torch_array. apply devicearray_returns_tensor.
Qed.

(** C5.  Whichever rule [singledispatch] resolves a jax array to, the array
    is converted as a tensor leaf: the result is the torch handle obtained
    through dlpack, with the dimensions and elements of the array, and it is
    what [_devicearray_jax_to_torch] returns, never what the rebuild
    [type(value)(...)] of the generic-iterable rule would give. *)
Theorem array_is_tensor_leaf dispatch (a : ndarray) device :
  (exists t, jax_to_torch dispatch (VJax a) device = Ok (VTorch t) /\
             shape t = shape a /\ elems t = elems a) /\
  _jax_iterable_to_torch (jax_to_torch dispatch) (VJax a) device
    = _devicearray_jax_to_torch a None /\
  jax_to_torch dispatch (VJax a) device
    <> type_call "_jax_iterable_to_torch.<locals>.<genexpr>" (VJax a)
         (jax_to_torch_genexpr (jax_to_torch dispatch) (VJax a) device).
Proof.
  destruct (tensor_leaf_returns dispatch a device) as (t & Ht & Hs & He & _).
  split; [exists t; repeat split; assumption|].
  split; [reflexivity|].
  rewrite Ht. simpl. discriminate.
Qed.

(** C10.  A jax array converted to torch and back is a jax array with the
    same dimensions and the same elements; only its placement may differ. *)
Theorem tensor_round_trip dispatch (t : ndarray) device :
  exists t' a,
    jax_to_torch dispatch (VJax t) device = Ok (VTorch t') /\
    torch_to_jax (VTorch t') = Ok (VJax a) /\
    elems a = elems t /\ shape a = shape t.
Proof.
  destruct (tensor_leaf_returns dispatch t device)
    as (t' & H & Hs & He & H64 & Hg).
  exists t', (mk_ndarray (shape t') (elems t') (placement t')).
  split; [exact H|]. split; [|split; assumption].
  simpl. unfold _tensor_torch_to_jax, jax_from_dlpack.
  rewrite Hg, H64. reflexivity.
Qed.

(** ** Unrecognised shapes *)

Lemma unrecognized_is_object v :
  recognized_shape v = false -> exists cls, v = VObject cls.
Proof.
  destruct v; simpl; try discriminate. intros _. now eexists.
Qed.

(** C6.  On a value that matches none of the six shapes both converters
    raise, and the message of the exception contains the printed runtime
    type of the value. *)
Theorem unrecognized_shape_raises dispatch (v : pyobject) device :
  recognized_shape v = false ->
  exists m1 m2,
    torch_to_jax v = Raise (Exception m1) /\
    jax_to_torch dispatch v device = Raise (Exception m2) /\
    names m1 (type_repr v) /\ names m2 (type_repr v).
Proof.
  intros H. apply unrecognized_is_object in H as [cls ->].
  do 2 eexists. split; [reflexivity|]. split; [reflexivity|].
  split; eexists; eexists; reflexivity.
Qed.

Lemma unrecognized_shape_raises_witness :
  exists m1 m2,
    torch_to_jax (VObject "socket.socket") = Raise (Exception m1) /\
    jax_to_torch ArrayRule (VObject "socket.socket") None
      = Raise (Exception m2) /\
    names m1 "<class 'socket.socket'>" /\ names m2 "<class 'socket.socket'>".
Proof.
  apply (unrecognized_shape_raises ArrayRule (VObject "socket.socket") None).
  reflexivity.
Defined.

(** ** Mappings *)

(** The keyword call of a class that takes its items as keywords. *)
Lemma call_kwargs_keyword_items cls kwargs r :
  keyword_items cls = true ->
  call_kwargs cls kwargs = Ok r <->
  (cls = Dict ->
   forallb (fun kv : key * pyobject => is_str_key (fst kv)) kwargs = true) /\
  r = VMapping cls kwargs.
Proof.
  intros Hc. destruct cls; try discriminate; simpl.
  - destruct (forallb _ kwargs); split.
    + intros H. injection H as <-. now split.
    + intros [_ ->]. reflexivity.
    + discriminate.
    + intros [H _]. discriminate (H eq_refl).
  - split.
    + intros H. injection H as <-. split; [discriminate|reflexivity].
    + intros [_ ->]. reflexivity.
Qed.





(** ** Records *)

(** C9.  A namedtuple whose fields convert is converted, in either
    direction, to a namedtuple of the same class holding the converted
    fields in the same order, rebuilt by [_make]; and whenever the
    conversion of a namedtuple returns, that is what it returns. *)
Theorem record_preserved dispatch cls (fields : list pyobject) device :
  (forall fields',
     Forall2 (fun v v' => torch_to_jax v = Ok v') fields fields' <->
     torch_to_jax (VNamedTuple cls fields) = Ok (VNamedTuple cls fields')) /\
  (forall fields',
     Forall2 (fun v v' => jax_to_torch dispatch v device = Ok v')
       fields fields' <->
     jax_to_torch dispatch (VNamedTuple cls fields) device
       = Ok (VNamedTuple cls fields')) /\
  (forall r, torch_to_jax (VNamedTuple cls fields) = Ok r ->
     exists fields', r = VNamedTuple cls fields') /\
  (forall r, jax_to_torch dispatch (VNamedTuple cls fields) device = Ok r ->
     exists fields', r = VNamedTuple cls fields') /\
  torch_to_jax (VNamedTuple cls fields)
    = type_make (VNamedTuple cls fields)
        (torch_to_jax_genexpr torch_to_jax (VNamedTuple cls fields)).
Proof.
  assert (Hmk : forall (f : pyobject -> result pyobject) fields',
    (xs <- consume (map f fields) ;; Ok (VNamedTuple cls xs))
      = Ok (VNamedTuple cls fields') <->
    Forall2 (fun v v' => f v = Ok v') fields fields').
  { intros f fields'. rewrite <- consume_map_Forall2.
    destruct (consume (map f fields)) as [xs|e]; simpl; split; intros H;
      try discriminate; congruence. }
  assert (Hshape : forall (f : pyobject -> result pyobject) r,
    (xs <- consume (map f fields) ;; Ok (VNamedTuple cls xs)) = Ok r ->
    exists fields', r = VNamedTuple cls fields').
  { intros f r. destruct (consume (map f fields)) as [xs|e]; simpl;
      intros H; [|discriminate]. injection H as <-. now eexists. }
  repeat split.
  - intros H. apply (Hmk torch_to_jax). exact H.
  - intros H. apply (Hmk torch_to_jax) in H. exact H.
  - intros H. apply (Hmk (fun v => jax_to_torch dispatch v device)). exact H.
  - intros H. apply (Hmk (fun v => jax_to_torch dispatch v device)) in H.
    exact H.
  - intros r H. apply (Hshape torch_to_jax r). exact H.
  - intros r H. apply (Hshape (fun v => jax_to_torch dispatch v device) r).
    exact H.
Qed.

Lemma record_preserved_witness :
  torch_to_jax
    (VNamedTuple "Transition" [VNum (NInt 1); VNone; VSeq PyList []])
  = Ok (VNamedTuple "Transition"
          [VJax (mk_ndarray [] [NInt 1] jax_default_device); VNone;
           VSeq PyList []]).
Proof.
  destruct (record_preserved ArrayRule "Transition"
              [VNum (NInt 1); VNone; VSeq PyList []] None) as [H _].
  apply H. repeat constructor.
Defined.

(** ** Totality *)

(** The mapping rule returns on a dict with string keys and on an
    [OrderedDict], when every value converts. *)
Lemma mapping_rule_returns (f : pyobject -> result pyobject) cls items :
  keyword_items cls = true ->
  (cls = Dict ->
   forallb (fun kv : key * pyobject => is_str_key (fst kv)) items = true) ->
  Forall (fun kv => exists y, f (snd kv) = Ok y) items ->
  exists r,
    (kwargs <- torch_to_jax_items f items [] ;; call_kwargs cls kwargs) = Ok r.
Proof.
  intros Hc Hstr Hall.
  destruct (items_total f items Hall []) as [kwargs Hk]. rewrite Hk. simpl.
  exists (VMapping cls kwargs).
  apply (call_kwargs_keyword_items cls kwargs _ Hc). split; [|reflexivity].
  intros E. rewrite (items_str_keys f items [] kwargs Hk). simpl.
  apply Hstr. exact E.
Qed.

Lemma supported_mapping leaf cls items :
  supported leaf (VMapping cls items) = true ->
  keyword_items cls = true /\
  (cls = Dict ->
   forallb (fun kv : key * pyobject => is_str_key (fst kv)) items = true) /\
  Forall (fun kv => supported leaf (snd kv) = true) items.
Proof.
  simpl. destruct cls; try discriminate; intros H;
    (split; [reflexivity|]).
  - assert (H' : forallb (fun kv : key * pyobject => is_str_key (fst kv)) items
                 = true /\
                 Forall (fun kv => supported leaf (snd kv) = true) items).
    { clear - H. induction items as [|[k x] items IH]; simpl in *.
      - split; [reflexivity|constructor].
      - apply andb_true_iff in H as [Hkx H].
        apply andb_true_iff in Hkx as [Hk Hx].
        destruct (IH H) as [Hs Hf]. rewrite Hk, Hs.
        split; [reflexivity|]. constructor; assumption. }
    destruct H' as [Hs Hf]. split; [intros _; exact Hs|exact Hf].
  - split; [discriminate|].
    clear - H. induction items as [|[k x] items IH]; simpl in *.
    + constructor.
    + apply andb_true_iff in H as [Hx H]. constructor; [exact Hx|now apply IH].
Qed.

Lemma supported_torch_returns v :
  supported torch_leaf v = true -> exists r, torch_to_jax v = Ok r.
Proof.
  induction v using pyobject_nested_ind; intros Hs;
    try (simpl in Hs; discriminate); try (eexists; reflexivity).
  - (* number *)
    destruct (number_conversion n) as [Hn _].
    destruct (Hn Hs) as (a & Ha & _). now exists (VJax a).
  - (* torch tensor *)
    simpl in Hs. apply negb_true_iff in Hs.
    simpl. unfold _tensor_torch_to_jax, jax_from_dlpack. rewrite Hs.
    eexists; reflexivity.
  - (* mapping *)
    apply supported_mapping in Hs as (Hc & Hstr & Hall).
    apply (mapping_rule_returns torch_to_jax cls items Hc Hstr).
    rewrite Forall_forall in *. intros kv Hin. apply (H kv Hin), Hall, Hin.
  - (* namedtuple *)
    simpl in Hs. destruct (consume_total torch_to_jax xs) as [ys Hys].
    + rewrite forallb_forall in Hs. rewrite Forall_forall in H |- *.
      intros x Hin. apply H; [exact Hin|]. apply Hs. exact Hin.
    + simpl. unfold _iterable_torch_to_jax. simpl. rewrite Hys. simpl.
      eexists; reflexivity.
  - (* list, tuple *)
    simpl in Hs. destruct (consume_total torch_to_jax xs) as [ys Hys].
    + rewrite forallb_forall in Hs. rewrite Forall_forall in H |- *.
      intros x Hin. apply H; [exact Hin|]. apply Hs. exact Hin.
    + simpl. unfold _iterable_torch_to_jax. simpl. rewrite Hys. simpl.
      eexists; reflexivity.
Qed.

Lemma supported_jax_returns dispatch v device :
  supported jax_leaf v = true ->
  exists r, jax_to_torch dispatch v device = Ok r.
Proof.
  induction v using pyobject_nested_ind; intros Hs;
    try (simpl in Hs; discriminate); try (eexists; reflexivity).
  - (* jax array *)
    destruct (tensor_leaf_returns dispatch a device) as (t & Ht & _).
    exists (VTorch t). exact Ht.
  - (* mapping *)
    apply supported_mapping in Hs as (Hc & Hstr & Hall).
    simpl. unfold _jax_mapping_to_torch. rewrite jax_to_torch_items_eq.
    apply (mapping_rule_returns (fun v => jax_to_torch dispatch v device)
             cls items Hc Hstr).
    rewrite Forall_forall in *. intros kv Hin. apply (H kv Hin), Hall, Hin.
  - (* namedtuple *)
    simpl in Hs.
    destruct (consume_total (fun v => jax_to_torch dispatch v device) xs)
      as [ys Hys].
    + rewrite forallb_forall in Hs. rewrite Forall_forall in H |- *.
      intros x Hin. apply H; [exact Hin|]. apply Hs. exact Hin.
    + simpl. unfold _jax_iterable_to_torch. simpl. rewrite Hys. simpl.
      eexists; reflexivity.
  - (* list, tuple *)
    simpl in Hs.
    destruct (consume_total (fun v => jax_to_torch dispatch v device) xs)
      as [ys Hys].
    + rewrite forallb_forall in Hs. rewrite Forall_forall in H |- *.
      intros x Hin. apply H; [exact Hin|]. apply Hs. exact Hin.
    + simpl. unfold _jax_iterable_to_torch. simpl. rewrite Hys. simpl.
      eexists; reflexivity.
Qed.

(** C3, as amended.  Each converter is a total function of its argument.
    [torch_to_jax] returns a result on every value built from [None], plain
    numbers whose integers fit [int32], torch tensors that do not require
    grad, strings, dicts with string keys, [OrderedDict]s, namedtuples,
    lists and tuples; [jax_to_torch] returns a result on every value built
    from [None], jax arrays, strings, dicts with string keys,
    [OrderedDict]s, namedtuples, lists and tuples.  On an integer that does
    not fit [int32] [torch_to_jax] raises [OverflowError], and on a tensor
    that requires grad it raises [BufferError]. *)
Theorem conversion_returns_on_supported dispatch (u v : pyobject) device :
  supported torch_leaf u = true ->
  supported jax_leaf v = true ->
  (exists r, torch_to_jax u = Ok r) /\
  (exists r, jax_to_torch dispatch v device = Ok r) /\
  (forall z, in_int32 z = false ->
     torch_to_jax (VNum (NInt z)) = Raise OverflowError) /\
  (forall t, requires_grad t = true ->
     torch_to_jax (VTorch t) = Raise BufferError).
Proof.
  intros Hu Hv. split; [|split; [|split]].
  - apply supported_torch_returns. exact Hu.
  - apply supported_jax_returns. exact Hv.
  - intros z Hz. simpl. unfold _number_torch_to_jax, jnp_array.
    rewrite Hz. reflexivity.
  - intros t Ht. simpl. unfold _tensor_torch_to_jax, jax_from_dlpack.
    rewrite Ht. reflexivity.
Qed.

Lemma conversion_returns_on_supported_witness :
  (exists r,
     torch_to_jax
       (VSeq PyList
          [VStr "ab"; VNum (NInt 7); VNum (NFloat f_half);
           VTorch (mk_tensor (mk_ndarray [1%nat] [NInt 5] "cpu") true false);
           VMapping Dict [(KStr "k", VNone)];
           VMapping OrderedDict [(KInt 0, VNone)]]) = Ok r) /\
  (exists r,
     jax_to_torch IterableRule
       (VSeq PyTuple [VStr "ab";
                      VJax (mk_ndarray [1%nat] [NInt 7] "cpu:0");
                      VMapping OrderedDict [(KInt 0, VNone)]])
       (Some (DeviceStr "cuda")) = Ok r).
Proof.
  destruct (conversion_returns_on_supported IterableRule
              (VSeq PyList
                 [VStr "ab"; VNum (NInt 7); VNum (NFloat f_half);
                  VTorch (mk_tensor (mk_ndarray [1%nat] [NInt 5] "cpu")
                            true false);
                  VMapping Dict [(KStr "k", VNone)];
                  VMapping OrderedDict [(KInt 0, VNone)]])
              (VSeq PyTuple [VStr "ab";
                             VJax (mk_ndarray [1%nat] [NInt 7] "cpu:0");
                             VMapping OrderedDict [(KInt 0, VNone)]])
              (Some (DeviceStr "cuda")) eq_refl eq_refl) as (H1 & H2 & _).
  split; assumption.
Defined.

(** C3 as stated fails: a mapping with an integer key is a recognised
    shape, yet neither converter returns on [{1: None}]; the keyword call
    [dict( **{1: None})] raises [TypeError]. *)
Lemma mapping_with_integer_key_raises :
  recognized_shape (VMapping Dict [(KInt 1, VNone)]) = true /\
  torch_to_jax (VMapping Dict [(KInt 1, VNone)]) = Raise TypeError /\
  jax_to_torch ArrayRule (VMapping Dict [(KInt 1, VNone)]) None
  = Raise TypeError.
Proof. repeat split. Qed.

(** What the converters return on a string: the text of the generator
    expression, not the string. *)
Lemma string_conversion s dispatch device :
  torch_to_jax (VStr s)
  = Ok (VStr "<generator object _iterable_torch_to_jax.<locals>.<genexpr>>") /\
  jax_to_torch dispatch (VStr s) device
  = Ok (VStr "<generator object _jax_iterable_to_torch.<locals>.<genexpr>>").
Proof. split; reflexivity. Qed.

(** ** The wrapper *)

(** Every tuple [step] returns has a plain float and two plain booleans in
    its second, third and fourth place. *)
Lemma step_returns_plain_scalars {S : Type} dispatch float_
  (self : JaxToTorch S) action st out st' :
  step dispatch float_ self action st = (Ok out, st') ->
  exists o r te tr i,
    out = VSeq PyTuple [o; VNum (NFloat r); VNum (NBool te);
                        VNum (NBool tr); i].
Proof.
  unfold step.
  destruct (torch_to_jax action) as [a|e]; [|discriminate].
  destruct (env_step (env self) a st) as [[[[[[obs rew] te] tr] info]|e] st1];
    [|discriminate].
  destruct (jax_to_torch dispatch obs (device self)) as [o|e];
    simpl; [|discriminate].
  destruct (float_ rew) as [r|e]; simpl; [|discriminate].
  destruct (bool_ te) as [bte|e]; simpl; [|discriminate].
  destruct (bool_ tr) as [btr|e]; simpl; [|discriminate].
  destruct (jax_to_torch dispatch info (device self)) as [i|e];
    simpl; [|discriminate].
  intros H. injection H as <- _. now exists o, r, bte, btr, i.
Qed.

(** C4.  When the action converts, the wrapped environment returns a
    5-tuple whose observation and info convert, and [float] and [bool] accept
    its reward and flags (plain or tensor-typed), [step] returns the tuple of
    the converted observation, the reward as a plain float, the two flags as
    plain booleans and the converted info; and every tuple [step] returns, for
    any action, has a plain float and two plain booleans in these places. *)
Theorem step_scalar_coercion {S : Type} dispatch float_
  (self : JaxToTorch S) action st jax_action
  obs reward terminated truncated info st'
  obs' reward' terminated' truncated' info' :
  torch_to_jax action = Ok jax_action ->
  env_step (env self) jax_action st
    = (Ok (obs, reward, terminated, truncated, info), st') ->
  jax_to_torch dispatch obs (device self) = Ok obs' ->
  float_ reward = Ok reward' ->
  bool_ terminated = Ok terminated' ->
  bool_ truncated = Ok truncated' ->
  jax_to_torch dispatch info (device self) = Ok info' ->
  step dispatch float_ self action st
    = (Ok (VSeq PyTuple [obs'; VNum (NFloat reward');
                         VNum (NBool terminated');
                         VNum (NBool truncated'); info']), st') /\
  (forall action0 st0 out st1,
     step dispatch float_ self action0 st0 = (Ok out, st1) ->
     exists o r te tr i,
       out = VSeq PyTuple [o; VNum (NFloat r); VNum (NBool te);
                           VNum (NBool tr); i]).
Proof.
  intros Ha Henv Ho Hr Hte Htr Hi. split.
  - unfold step. rewrite Ha, Henv, Ho, Hr, Hte, Htr, Hi. reflexivity.
  - intros action0 st0 out st1. apply step_returns_plain_scalars.
Qed.

Lemma step_scalar_coercion_witness :
  step ArrayRule float_of_scalar (mk_JaxToTorch echo_env None)
    (VTorch (mk_tensor (mk_ndarray [1%nat] [NFloat f_half] "cpu")
               false false)) tt
  = (Ok (VSeq PyTuple
           [VTorch (mk_tensor (mk_ndarray [1%nat] [NFloat f_half] "cpu")
                      false false);
            VNum (NFloat f_one); VNum (NBool true); VNum (NBool false);
            VMapping Dict []]), tt).
Proof.
  apply (step_scalar_coercion ArrayRule float_of_scalar
           (mk_JaxToTorch echo_env None)
           (VTorch (mk_tensor (mk_ndarray [1%nat] [NFloat f_half] "cpu")
                      false false)) tt
           (VJax (mk_ndarray [1%nat] [NFloat f_half] "cpu"))
           (VJax (mk_ndarray [1%nat] [NFloat f_half] "cpu"))
           (VJax (mk_ndarray [] [NFloat f_one] jax_default_device))
           (VJax (mk_ndarray [] [NBool true] jax_default_device))
           (VJax (mk_ndarray [1%nat] [NBool false] jax_default_device))
           (VMapping Dict []) tt); reflexivity.
Defined.

(** C8, as amended.  [reset] calls the wrapped environment's [reset] with
    the unchanged [seed] and with [options] converted by [torch_to_jax] when
    they are true, and with [options] as they are when they are false
    ([None], and also an empty dict, [0], or a tensor holding one zero); the
    (observation, info) pair the environment returns is returned as the pair
    of their conversions by [jax_to_torch] with the wrapper's device. *)
Theorem reset_converts {S : Type} dispatch (self : JaxToTorch S)
  seed options st passed obs info st' obs' info' :
  (bool_ options = Ok true /\ torch_to_jax options = Ok passed) \/
  (bool_ options = Ok false /\ passed = options) ->
  env_reset (env self) seed passed st
    = (Ok (VSeq PyTuple [obs; info]), st') ->
  jax_to_torch dispatch obs (device self) = Ok obs' ->
  jax_to_torch dispatch info (device self) = Ok info' ->
  reset dispatch self seed options st
    = (Ok (VSeq PyTuple [obs'; info']), st').
Proof.
  intros Hopt Henv Ho Hi. unfold reset.
  destruct Hopt as [[Hb Hc]|[Hb ->]]; rewrite Hb; [rewrite Hc|];
    rewrite Henv; simpl; unfold _jax_iterable_to_torch; simpl;
    rewrite Ho, Hi; reflexivity.
Qed.

Lemma reset_converts_witness :
  reset ArrayRule (mk_JaxToTorch recording_env (Some (DeviceStr "cuda")))
    (Some 123)
    (VMapping Dict
       [(KStr "goal",
         VTorch (mk_tensor (mk_ndarray [1%nat] [NFloat f_one] "cpu")
                   true false))])
    []
  = (Ok (VSeq PyTuple
           [VTorch (mk_tensor
                      (mk_ndarray [2%nat] [NFloat f_one; NFloat f_two] "cuda")
                      false false);
            VMapping Dict []]),
     [(Some 123,
       VMapping Dict
         [(KStr "goal", VJax (mk_ndarray [1%nat] [NFloat f_one] "cpu"))])]).
Proof.
  apply (reset_converts ArrayRule
           (mk_JaxToTorch recording_env (Some (DeviceStr "cuda")))
           (Some 123)
           (VMapping Dict
              [(KStr "goal",
                VTorch (mk_tensor (mk_ndarray [1%nat] [NFloat f_one] "cpu")
                          true false))])
           []
           (VMapping Dict
              [(KStr "goal", VJax (mk_ndarray [1%nat] [NFloat f_one] "cpu"))])
           (VJax (mk_ndarray [2%nat] [NFloat f_one; NFloat f_two]
                    jax_default_device))
           (VMapping Dict [])).
  - left. split; reflexivity.
  - reflexivity.
  - reflexivity.
  - reflexivity.
Defined.

(** C8 as stated fails: options that are present but false are not
    converted.  A torch tensor that holds one zero, and the integer [0],
    reach the wrapped environment as they are, where [torch_to_jax] would
    have made a jax array of each. *)
Lemma reset_false_options_not_converted :
  torch_to_jax
    (VTorch (mk_tensor (mk_ndarray [1%nat] [NFloat 0] "cpu") false false))
  = Ok (VJax (mk_ndarray [1%nat] [NFloat 0] "cpu")) /\
  snd (reset ArrayRule (mk_JaxToTorch recording_env None) None
         (VTorch (mk_tensor (mk_ndarray [1%nat] [NFloat 0] "cpu") false false))
         [])
  = [(None,
      VTorch (mk_tensor (mk_ndarray [1%nat] [NFloat 0] "cpu") false false))] /\
  torch_to_jax (VNum (NInt 0))
  = Ok (VJax (mk_ndarray [] [NInt 0] jax_default_device)) /\
  snd (reset ArrayRule (mk_JaxToTorch recording_env None) (Some 7)
         (VNum (NInt 0)) [])
  = [(Some 7, VNum (NInt 0))].
Proof. repeat split. Qed.

(** C2, as amended.  [render] delegates to the wrapped environment's
    [render] and returns [jax_to_torch] of its output with no device:
    [None] is returned as it is, and a jax array is returned as the torch
    tensor obtained through dlpack, left where it lies even when the wrapper
    holds a device. *)
Theorem render_converts {S : Type} dispatch (self : JaxToTorch S) st r st' :
  env_render (env self) st = (r, st') ->
  render dispatch self st
    = (bind r (fun v => jax_to_torch dispatch v None), st') /\
  (r = Ok VNone -> render dispatch self st = (Ok VNone, st')) /\
  (forall a, r = Ok (VJax a) ->
     render dispatch self st = (Ok (VTorch (torch_from_dlpack a)), st')).
Proof.
  intros Henv.
  assert (H : render dispatch self st
              = (bind r (fun v => jax_to_torch dispatch v None), st')).
  { unfold render. rewrite Henv. destruct r; reflexivity. }
  split; [exact H|]. split.
  - intros ->. exact H.
  - intros a ->. rewrite H. simpl. destruct dispatch; reflexivity.
Qed.

Lemma render_converts_witness :
  render IterableRule (mk_JaxToTorch echo_env (Some (DeviceStr "cuda"))) tt
  = (Ok (VTorch (mk_tensor
                   (mk_ndarray [1%nat] [NFloat f_half] jax_default_device)
                   false false)), tt).
Proof.
  destruct (render_converts IterableRule
              (mk_JaxToTorch echo_env (Some (DeviceStr "cuda"))) tt
              (Ok (VJax (mk_ndarray [1%nat] [NFloat f_half]
                           jax_default_device))) tt eq_refl)
    as (_ & _ & H).
  exact (H _ eq_refl).
Defined.

(** C2 as stated fails: the frame the environment renders is a jax array,
    and [render] returns a torch tensor. *)
Lemma render_output_is_converted :
  env_render echo_env tt
  = (Ok (VJax (mk_ndarray [1%nat] [NFloat f_half] jax_default_device)), tt) /\
  render ArrayRule (mk_JaxToTorch echo_env None) tt
  = (Ok (VTorch (mk_tensor
                   (mk_ndarray [1%nat] [NFloat f_half] jax_default_device)
                   false false)), tt) /\
  fst (render ArrayRule (mk_JaxToTorch echo_env None) tt)
    <> fst (env_render echo_env tt).
Proof.
  split; [reflexivity|]. split; [reflexivity|]. simpl. discriminate.
Qed.

(** * Further properties of the converters *)

(** ** Lists and tuples *)

Lemma seq_rule_result (f : pyobject -> result pyobject) cls xs r :
  (ys <- consume (map f xs) ;; Ok (VSeq cls ys)) = Ok r <->
  exists ys, r = VSeq cls ys /\ Forall2 (fun x y => f x = Ok y) xs ys.
Proof.
  destruct (consume (map f xs)) as [ys|e] eqn:H; simpl; split.
  - intros E. injection E as <-. exists ys. split; [reflexivity|].
    apply consume_map_Forall2. exact H.
  - intros (ys' & -> & H'). apply consume_map_Forall2 in H'.
    rewrite H in H'. injection H' as ->. reflexivity.
  - discriminate.
  - intros (ys' & _ & H'). apply consume_map_Forall2 in H'.
    rewrite H in H'. discriminate H'.
Qed.

(** A list or a tuple converts exactly when each of its elements does, and
    then to a sequence of the same class and length holding the converted
    elements in order. *)
Theorem sequence_preserved dispatch cls (xs : list pyobject) device r :
  (torch_to_jax (VSeq cls xs) = Ok r <->
   exists ys, r = VSeq cls ys /\
              Forall2 (fun x y => torch_to_jax x = Ok y) xs ys) /\
  (jax_to_torch dispatch (VSeq cls xs) device = Ok r <->
   exists ys, r = VSeq cls ys /\
              Forall2 (fun x y => jax_to_torch dispatch x device = Ok y)
                xs ys) /\
  (torch_to_jax (VSeq cls xs) = Ok r \/
   jax_to_torch dispatch (VSeq cls xs) device = Ok r ->
   exists ys, r = VSeq cls ys /\ List.length ys = List.length xs).
Proof.
  assert (H1 := seq_rule_result torch_to_jax cls xs r).
  assert (H2 := seq_rule_result (fun v => jax_to_torch dispatch v device)
                  cls xs r).
  split; [exact H1|]. split; [exact H2|].
  intros [H|H].
  - apply H1 in H as (ys & -> & HF). exists ys. split; [reflexivity|].
    symmetry. eapply Forall2_length. exact HF.
  - apply H2 in H as (ys & -> & HF). exists ys. split; [reflexivity|].
    symmetry. eapply Forall2_length. exact HF.
Qed.

Lemma consume_first_error (f : pyobject -> result pyobject) pre x post ys e :
  Forall2 (fun v v' => f v = Ok v') pre ys ->
  f x = Raise e ->
  consume (map f (pre ++ x :: post)) = Raise e.
Proof.
  intros Hpre Hx. induction Hpre as [|v v' pre ys Hv _ IH]; simpl.
  - rewrite Hx. reflexivity.
  - rewrite Hv. simpl. rewrite IH. reflexivity.
Qed.

(** The elements of a list, a tuple or a namedtuple are converted from left
    to right, and the conversion raises what the first failing element
    raises: elements after it are not looked at. *)
Theorem sequence_first_error cls name (pre : list pyobject) x post ys e :
  Forall2 (fun v v' => torch_to_jax v = Ok v') pre ys ->
  torch_to_jax x = Raise e ->
  torch_to_jax (VSeq cls (pre ++ x :: post)) = Raise e /\
  torch_to_jax (VNamedTuple name (pre ++ x :: post)) = Raise e.
Proof.
  intros Hpre Hx.
  assert (H := consume_first_error torch_to_jax pre x post ys e Hpre Hx).
  split; simpl; unfold _iterable_torch_to_jax; simpl; rewrite H; reflexivity.
Qed.

Lemma sequence_first_error_witness :
  torch_to_jax
    (VSeq PyList [VNone; VObject "socket.socket"; VObject "io.BytesIO"])
  = Raise (Exception
      "No known conversion for Torch type (<class 'socket.socket'>) to Jax registered. Report as issue on github.").
Proof.
  apply (sequence_first_error PyList "T" [VNone] (VObject "socket.socket")
           [VObject "io.BytesIO"] [VNone]).
  - repeat constructor.
  - reflexivity.
Defined.

(** The same in the other direction, with the exception of the first failing
    element; a plain number is such an element. *)
Theorem sequence_first_error_jax dispatch device cls name
  (pre : list pyobject) x post ys e :
  Forall2 (fun v v' => jax_to_torch dispatch v device = Ok v') pre ys ->
  jax_to_torch dispatch x device = Raise e ->
  jax_to_torch dispatch (VSeq cls (pre ++ x :: post)) device = Raise e /\
  jax_to_torch dispatch (VNamedTuple name (pre ++ x :: post)) device
    = Raise e.
Proof.
  intros Hpre Hx.
  assert (H := consume_first_error (fun v => jax_to_torch dispatch v device)
                 pre x post ys e Hpre Hx).
  split; simpl; unfold _jax_iterable_to_torch; simpl; rewrite H; reflexivity.
Qed.

Lemma sequence_first_error_jax_witness :
  jax_to_torch ArrayRule
    (VSeq PyTuple [VJax (mk_ndarray [] [NInt 1] "cpu:0"); VNum (NInt 2)])
    None
  = Raise (Exception
      "No known conversion for Jax type (<class 'int'>) to PyTorch registered. Report as issue on github.").
Proof.
  apply (sequence_first_error_jax ArrayRule None PyTuple "T"
           [VJax (mk_ndarray [] [NInt 1] "cpu:0")] (VNum (NInt 2)) []
           [VTorch (mk_tensor (mk_ndarray [] [NInt 1] "cpu:0") false false)]).
  - repeat constructor.
  - reflexivity.
Defined.

(** ** Mappings that do not convert *)

Lemma items_first_error (f : pyobject -> result pyobject) pre k x post e :
  Forall (fun kv => exists y, f (snd kv) = Ok y) pre ->
  f x = Raise e ->
  forall d, torch_to_jax_items f (pre ++ (k, x) :: post) d = Raise e.
Proof.
  intros Hpre Hx. induction Hpre as [|[k0 v0] pre [y Hy] _ IH]; intros d; simpl.
  - rewrite Hx. reflexivity.
  - simpl in Hy. rewrite Hy. simpl. apply IH.
Qed.

(** The values of a mapping are converted in the order of its items, before
    the mapping is rebuilt: the conversion raises what the first failing
    value raises, whatever the class and the keys of the mapping. *)
Theorem mapping_first_error dispatch device cls
  (pre : list (key * pyobject)) k x post :
  (forall e,
     Forall (fun kv => exists y, torch_to_jax (snd kv) = Ok y) pre ->
     torch_to_jax x = Raise e ->
     torch_to_jax (VMapping cls (pre ++ (k, x) :: post)) = Raise e) /\
  (forall e,
     Forall (fun kv => exists y, jax_to_torch dispatch (snd kv) device = Ok y)
       pre ->
     jax_to_torch dispatch x device = Raise e ->
     jax_to_torch dispatch (VMapping cls (pre ++ (k, x) :: post)) device
       = Raise e).
Proof.
  split; intros e Hpre Hx; simpl.
  - unfold _mapping_torch_to_jax.
    rewrite (items_first_error torch_to_jax pre k x post e Hpre Hx).
    reflexivity.
  - unfold _jax_mapping_to_torch. rewrite jax_to_torch_items_eq.
    rewrite (items_first_error (fun v => jax_to_torch dispatch v device)
               pre k x post e Hpre Hx).
    reflexivity.
Qed.

Lemma mapping_first_error_witness :
  jax_to_torch ArrayRule
    (VMapping Dict [(KStr "pos", VNone); (KInt 7, VNum (NInt 3))]) None
  = Raise (Exception
      "No known conversion for Jax type (<class 'int'>) to PyTorch registered. Report as issue on github.").
Proof.
  destruct (mapping_first_error ArrayRule None Dict [(KStr "pos", VNone)]
              (KInt 7) (VNum (NInt 3)) []) as [_ H].
  apply H.
  - constructor; [eexists; reflexivity|constructor].
  - reflexivity.
Defined.

(** A dict with a key that is not a string never converts: when all its
    values convert, the keyword call that rebuilds it raises [TypeError].
    An [OrderedDict] with the same items converts, its constructor taking
    keywords that are not strings. *)
Theorem mapping_non_string_key_raises dispatch device
  (items : list (key * pyobject)) :
  existsb (fun kv => negb (is_str_key (fst kv))) items = true ->
  (Forall (fun kv => exists y, torch_to_jax (snd kv) = Ok y) items ->
   torch_to_jax (VMapping Dict items) = Raise TypeError /\
   exists r, torch_to_jax (VMapping OrderedDict items) = Ok r) /\
  (Forall (fun kv => exists y, jax_to_torch dispatch (snd kv) device = Ok y)
     items ->
   jax_to_torch dispatch (VMapping Dict items) device = Raise TypeError /\
   exists r, jax_to_torch dispatch (VMapping OrderedDict items) device
             = Ok r) /\
  (forall r, torch_to_jax (VMapping Dict items) <> Ok r) /\
  (forall r, jax_to_torch dispatch (VMapping Dict items) device <> Ok r).
Proof.
  intros Hk.
  assert (Hstr : forallb (fun kv : key * pyobject => is_str_key (fst kv)) items
                 = false).
  { clear - Hk. induction items as [|[k v] items IH]; simpl in *.
    - discriminate.
    - destruct (is_str_key k); simpl in *; [apply IH; exact Hk|reflexivity]. }
  assert (Hrule : forall (f : pyobject -> result pyobject),
    (forall r, (kwargs <- torch_to_jax_items f items [] ;;
                call_kwargs Dict kwargs) <> Ok r) /\
    (Forall (fun kv => exists y, f (snd kv) = Ok y) items ->
     (kwargs <- torch_to_jax_items f items [] ;; call_kwargs Dict kwargs)
     = Raise TypeError /\
     exists r, (kwargs <- torch_to_jax_items f items [] ;;
                call_kwargs OrderedDict kwargs) = Ok r)).
  { intros f. split.
    - intros r H.
      destruct (torch_to_jax_items f items []) as [kw|e] eqn:E; simpl in H;
        [|discriminate].
      apply items_str_keys in E. simpl in E. rewrite Hstr in E.
      rewrite E in H. discriminate.
    - intros Hall. destruct (items_total f items Hall []) as [kw E].
      rewrite E. simpl. split; [|eexists; reflexivity].
      apply items_str_keys in E. simpl in E. rewrite Hstr in E.
      rewrite E. reflexivity. }
  destruct (Hrule torch_to_jax) as [Hn1 Hr1].
  destruct (Hrule (fun v => jax_to_torch dispatch v device)) as [Hn2 Hr2].
  split; [exact Hr1|]. split; [|split; [exact Hn1|]].
  - intros Hall. simpl. unfold _jax_mapping_to_torch.
    rewrite !jax_to_torch_items_eq. apply Hr2. exact Hall.
  - intros r. simpl. unfold _jax_mapping_to_torch.
    rewrite jax_to_torch_items_eq. apply Hn2.
Qed.

Lemma mapping_non_string_key_raises_witness :
  torch_to_jax
    (VMapping Dict [(KStr "a", VNone); (KInt 0, VNum (NInt 1))])
  = Raise TypeError /\
  exists r,
    torch_to_jax
      (VMapping OrderedDict [(KStr "a", VNone); (KInt 0, VNum (NInt 1))])
    = Ok r.
Proof.
  destruct (mapping_non_string_key_raises ArrayRule None
              [(KStr "a", VNone); (KInt 0, VNum (NInt 1))] eq_refl)
    as [H _].
  apply H. repeat constructor; eexists; reflexivity.
Defined.

(** ** The device hint and the dispatch of arrays *)

Lemma items_ext (f g : pyobject -> result pyobject) items :
  Forall (fun kv => f (snd kv) = g (snd kv)) items ->
  forall d, torch_to_jax_items f items d = torch_to_jax_items g items d.
Proof.
  induction 1 as [|[k v] items Hv _ IH]; intros d; simpl.
  - reflexivity.
  - simpl in Hv. rewrite Hv. destruct (g v); simpl; [apply IH|reflexivity].
Qed.

Lemma map_ext_Forall (f g : pyobject -> result pyobject) xs :
  Forall (fun x => f x = g x) xs -> map f xs = map g xs.
Proof.
  induction 1 as [|x xs Hx _ IH]; simpl; [reflexivity|].
  now rewrite Hx, IH.
Qed.

(** Two calls of [jax_to_torch] that agree on every jax array agree on every
    value: arrays are the only place where the dispatch and the device
    matter. *)
Lemma jax_to_torch_ext d1 dev1 d2 dev2 :
  (forall a, jax_to_torch d1 (VJax a) dev1 = jax_to_torch d2 (VJax a) dev2) ->
  forall v, jax_to_torch d1 v dev1 = jax_to_torch d2 v dev2.
Proof.
  intros Harr. induction v using pyobject_nested_ind;
    try reflexivity; try apply Harr.
  - (* mapping *)
    simpl. unfold _jax_mapping_to_torch. rewrite !jax_to_torch_items_eq.
    rewrite (items_ext (fun v => jax_to_torch d1 v dev1)
               (fun v => jax_to_torch d2 v dev2) items H).
    reflexivity.
  - (* namedtuple *)
    simpl. unfold _jax_iterable_to_torch. simpl.
    rewrite (map_ext_Forall (fun v => jax_to_torch d1 v dev1)
               (fun v => jax_to_torch d2 v dev2) xs H).
    reflexivity.
  - (* list, tuple *)
    simpl. unfold _jax_iterable_to_torch. simpl.
    rewrite (map_ext_Forall (fun v => jax_to_torch d1 v dev1)
               (fun v => jax_to_torch d2 v dev2) xs H).
    reflexivity.
Qed.

(** Where a converted array lies.  Under the [jax.Array] rule a true device
    moves it there, and [None] or the empty string leave it where the jax
    array is; under the iterable rule it always stays where the jax array
    is. *)
Theorem array_placement (a : ndarray) device :
  (forall d, device = Some d -> device_truth device = true ->
     jax_to_torch ArrayRule (VJax a) device
     = Ok (VTorch (mk_tensor (mk_ndarray (shape a) (elems a) (device_name d))
                     false false))) /\
  (device_truth device = false ->
     jax_to_torch ArrayRule (VJax a) device
     = Ok (VTorch (mk_tensor (mk_ndarray (shape a) (elems a) (placement a))
                     false false))) /\
  jax_to_torch IterableRule (VJax a) device
  = Ok (VTorch (mk_tensor (mk_ndarray (shape a) (elems a) (placement a))
                  false false)).
Proof.
  split; [|split].
  - intros d -> Ht.
    change (jax_to_torch ArrayRule (VJax a) (Some d))
      with (_devicearray_jax_to_torch a (Some d)).
    unfold _devicearray_jax_to_torch. rewrite Ht. reflexivity.
  - intros Hf.
    change (jax_to_torch ArrayRule (VJax a) device)
      with (_devicearray_jax_to_torch a device).
    unfold _devicearray_jax_to_torch.
    destruct device as [d|]; [rewrite Hf|]; reflexivity.
  - reflexivity.
Qed.

(** When the arrays of the installed jax are dispatched to the iterable
    rule, the device hint has no effect on any value: the guard calls
    [_devicearray_jax_to_torch] without it. *)
Theorem iterable_dispatch_ignores_device (v : pyobject) device :
  jax_to_torch IterableRule v device = jax_to_torch IterableRule v None.
Proof.
  apply jax_to_torch_ext. intros a. reflexivity.
Qed.

(** Without a true device the two dispatch outcomes give the same result on
    every value: the guard of the iterable rule stands in for the
    [jax.Array] rule. *)
Theorem dispatch_agrees_without_device (v : pyobject) device :
  device_truth device = false ->
  jax_to_torch ArrayRule v device = jax_to_torch IterableRule v None /\
  jax_to_torch ArrayRule v device = jax_to_torch ArrayRule v None.
Proof.
  intros Hf.
  split; apply jax_to_torch_ext; intros a;
    change (jax_to_torch ArrayRule (VJax a) device)
      with (_devicearray_jax_to_torch a device);
    unfold _devicearray_jax_to_torch;
    (destruct device as [d|]; [rewrite Hf|]; reflexivity).
Qed.

Lemma dispatch_agrees_without_device_witness :
  jax_to_torch ArrayRule
    (VSeq PyList [VJax (mk_ndarray [1%nat] [NInt 1] "cuda:1")])
    (Some (DeviceStr ""))
  = jax_to_torch IterableRule
      (VSeq PyList [VJax (mk_ndarray [1%nat] [NInt 1] "cuda:1")]) None.
Proof.
  destruct (dispatch_agrees_without_device
              (VSeq PyList [VJax (mk_ndarray [1%nat] [NInt 1] "cuda:1")])
              (Some (DeviceStr "")) eq_refl) as [H _].
  exact H.
Defined.

(** ** A converter does not accept its own output *)

(** [torch_to_jax] has no rule for jax arrays and [jax_to_torch] none for
    torch tensors: each sends the other's tensors to its iterable rule,
    whose rebuild raises [TypeError].  So converting a converted tensor
    again, in the same direction, fails. *)
Theorem converter_rejects_own_output dispatch (t : tensor) (a : ndarray)
  device :
  (forall r, torch_to_jax (VTorch t) = Ok r ->
             torch_to_jax r = Raise TypeError) /\
  (forall r, jax_to_torch dispatch (VJax a) device = Ok r ->
             jax_to_torch dispatch r device = Raise TypeError).
Proof.
  split; intros r H.
  - simpl in H. unfold _tensor_torch_to_jax in H.
    destruct (jax_from_dlpack t) as [a'|e]; simpl in H; [|discriminate].
    injection H as <-. reflexivity.
  - destruct (tensor_leaf_returns dispatch a device) as (t' & Ht' & _).
    rewrite Ht' in H. injection H as <-. reflexivity.
Qed.

(** ** Round trips of structures *)

Lemma consume_exact (f : pyobject -> result pyobject) (g : pyobject -> pyobject)
  xs :
  Forall (fun x => f x = Ok (g x)) xs -> consume (map f xs) = Ok (map g xs).
Proof.
  induction 1 as [|x xs Hx _ IH]; simpl; [reflexivity|].
  rewrite Hx, IH. reflexivity.
Qed.

Lemma str_keys_map (g : pyobject -> pyobject) items :
  forallb (fun kv : key * pyobject => is_str_key (fst kv))
    (map (fun kv : key * pyobject => let (k, x) := kv in (k, g x)) items)
  = forallb (fun kv : key * pyobject => is_str_key (fst kv)) items.
Proof.
  induction items as [|[k v] items IH]; simpl; [reflexivity|].
  now rewrite IH.
Qed.

Lemma keys_map (g : pyobject -> pyobject) items :
  map fst (map (fun kv : key * pyobject => let (k, x) := kv in (k, g x)) items)
  = map fst items.
Proof.
  induction items as [|[k v] items IH]; simpl; [reflexivity|].
  now rewrite IH.
Qed.

(** The shape of a mapping in a structure: a dict-like class, unique string
    keys, and values that are structures. *)
Lemma structure_of_mapping leaf cls items :
  structure_of leaf (VMapping cls items) = true ->
  cls <> MappingProxyType /\
  NoDup (map fst items) /\
  forallb (fun kv : key * pyobject => is_str_key (fst kv)) items = true /\
  Forall (fun kv => structure_of leaf (snd kv) = true) items.
Proof.
  simpl. intros H.
  assert (Hc : cls <> MappingProxyType) by (destruct cls; congruence).
  assert (H' : nodup_keys (map fst items) &&
               forallb (fun kv : key * pyobject =>
                          let (k, x) := kv in
                          is_str_key k && structure_of leaf x) items = true)
    by (destruct cls; congruence).
  apply andb_true_iff in H' as [Hnd Hall].
  split; [exact Hc|]. split; [apply nodup_keys_NoDup; exact Hnd|].
  clear - Hall. induction items as [|[k v] items IH]; simpl in *.
  - split; [reflexivity|constructor].
  - apply andb_true_iff in Hall as [Hkv Hall].
    apply andb_true_iff in Hkv as [Hk Hv].
    destruct (IH Hall) as [Hs Hf]. rewrite Hk, Hs.
    split; [reflexivity|]. constructor; [exact Hv|exact Hf].
Qed.

Lemma call_kwargs_dict cls kwargs :
  cls <> MappingProxyType ->
  forallb (fun kv : key * pyobject => is_str_key (fst kv)) kwargs = true ->
  call_kwargs cls kwargs = Ok (VMapping cls kwargs).
Proof.
  intros Hc Hs. unfold call_kwargs. rewrite Hs.
  destruct cls; congruence.
Qed.

Lemma jax_to_torch_structure dispatch v :
  structure_of none_or_jax v = true ->
  jax_to_torch dispatch v None = Ok (as_torch v).
Proof.
  induction v using pyobject_nested_ind; intros Hs;
    try (simpl in Hs; discriminate); try reflexivity.
  - (* jax array *) destruct dispatch; reflexivity.
  - (* mapping *)
    apply structure_of_mapping in Hs as (Hc & Hnd & Hstr & Hall).
    simpl. unfold _jax_mapping_to_torch. rewrite jax_to_torch_items_eq.
    rewrite (items_Forall2 (fun v => jax_to_torch dispatch v None) items
               (map (fun kv : key * pyobject =>
                       let (k, x) := kv in (k, as_torch x)) items)).
    + simpl. apply call_kwargs_dict; [exact Hc|].
      rewrite str_keys_map. exact Hstr.
    + clear - H Hall. induction items as [|[k x] items IH]; simpl.
      * constructor.
      * inversion H; inversion Hall; subst. constructor; [|now apply IH].
        simpl in *. split; [reflexivity|]. auto.
    + simpl. exact Hnd.
  - (* namedtuple *)
    simpl in Hs. simpl. unfold _jax_iterable_to_torch. simpl.
    rewrite (consume_exact (fun v => jax_to_torch dispatch v None) as_torch).
    + reflexivity.
    + rewrite forallb_forall in Hs. rewrite Forall_forall in H |- *.
      intros x Hin. apply H; [exact Hin|]. apply Hs. exact Hin.
  - (* list, tuple *)
    simpl in Hs. simpl. unfold _jax_iterable_to_torch. simpl.
    rewrite (consume_exact (fun v => jax_to_torch dispatch v None) as_torch).
    + reflexivity.
    + rewrite forallb_forall in Hs. rewrite Forall_forall in H |- *.
      intros x Hin. apply H; [exact Hin|]. apply Hs. exact Hin.
Qed.

Lemma consume_inverse (h : pyobject -> pyobject) xs :
  Forall (fun x => torch_to_jax (h x) = Ok x) xs ->
  consume (map torch_to_jax (map h xs)) = Ok xs.
Proof.
  induction 1 as [|x xs Hx _ IH]; simpl; [reflexivity|].
  rewrite Hx. simpl. rewrite IH. reflexivity.
Qed.

Lemma torch_to_jax_as_torch v :
  structure_of none_or_jax v = true -> torch_to_jax (as_torch v) = Ok v.
Proof.
  induction v using pyobject_nested_ind; intros Hs;
    try (simpl in Hs; discriminate); try reflexivity.
  - (* jax array *) destruct a; reflexivity.
  - (* mapping *)
    apply structure_of_mapping in Hs as (Hc & Hnd & Hstr & Hall).
    simpl. unfold _mapping_torch_to_jax.
    rewrite (items_Forall2 torch_to_jax
               (map (fun kv : key * pyobject =>
                       let (k, x) := kv in (k, as_torch x)) items) items).
    + simpl. apply call_kwargs_dict; assumption.
    + clear - H Hall. induction items as [|[k x] items IH]; simpl.
      * constructor.
      * inversion H; inversion Hall; subst. constructor; [|now apply IH].
        simpl in *. split; [reflexivity|]. auto.
    + simpl. rewrite keys_map. exact Hnd.
  - (* namedtuple *)
    simpl in Hs. simpl. unfold _iterable_torch_to_jax. simpl.
    rewrite consume_inverse; [reflexivity|].
    rewrite forallb_forall in Hs. rewrite Forall_forall in H |- *.
    intros x Hin. apply H; [exact Hin|]. apply Hs. exact Hin.
  - (* list, tuple *)
    simpl in Hs. simpl. unfold _iterable_torch_to_jax. simpl.
    rewrite consume_inverse; [reflexivity|].
    rewrite forallb_forall in Hs. rewrite Forall_forall in H |- *.
    intros x Hin. apply H; [exact Hin|]. apply Hs. exact Hin.
Qed.

(** On a nested structure of jax arrays and [None] (dict-like mappings with
    unique string keys, namedtuples, lists, tuples), [jax_to_torch] without a
    true device returns the same structure with each array replaced by its
    torch handle, and [torch_to_jax] of that returns the structure it
    started from. *)
Theorem structure_round_trip dispatch (v : pyobject) device :
  structure_of none_or_jax v = true ->
  device_truth device = false ->
  jax_to_torch dispatch v device = Ok (as_torch v) /\
  torch_to_jax (as_torch v) = Ok v.
Proof.
  intros Hs Hf. split; [|apply torch_to_jax_as_torch; exact Hs].
  rewrite <- (jax_to_torch_structure dispatch v Hs).
  apply jax_to_torch_ext. intros a.
  rewrite !jax_to_torch_array. unfold _devicearray_jax_to_torch.
  destruct dispatch; [|reflexivity].
  destruct device as [d|]; [rewrite Hf|]; reflexivity.
Qed.

Lemma structure_round_trip_witness :
  torch_to_jax
    (as_torch
       (VMapping Dict
          [(KStr "pos", VJax (mk_ndarray [2%nat] [NInt 1; NInt 2] "cpu:0"));
           (KStr "goal", VSeq PyTuple [VNone])]))
  = Ok (VMapping Dict
          [(KStr "pos", VJax (mk_ndarray [2%nat] [NInt 1; NInt 2] "cpu:0"));
           (KStr "goal", VSeq PyTuple [VNone])]).
Proof.
  destruct (structure_round_trip IterableRule
              (VMapping Dict
                 [(KStr "pos",
                   VJax (mk_ndarray [2%nat] [NInt 1; NInt 2] "cpu:0"));
                  (KStr "goal", VSeq PyTuple [VNone])])
              None eq_refl eq_refl) as [_ H].
  exact H.
Defined.

(** ** Structures without tensors *)

Lemma Forall_fixed_consume (f : pyobject -> result pyobject) xs :
  Forall (fun x => f x = Ok x) xs -> consume (map f xs) = Ok xs.
Proof.
  induction 1 as [|x xs Hx _ IH]; simpl; [reflexivity|].
  rewrite Hx. simpl. rewrite IH. reflexivity.
Qed.

Lemma Forall_fixed_items (f : pyobject -> result pyobject) items :
  Forall (fun kv => f (snd kv) = Ok (snd kv)) items ->
  NoDup (map fst items) ->
  torch_to_jax_items f items [] = Ok items.
Proof.
  intros H Hnd.
  rewrite (items_Forall2 f items items); [reflexivity| |exact Hnd].
  clear Hnd. induction H as [|kv items Hv _ IH].
  - constructor.
  - constructor; [now split|exact IH].
Qed.

(** A nested structure that holds only [None] at its leaves (empty
    containers included) is returned as it is by both converters, whatever
    the device. *)
Theorem tensor_free_structure_unchanged dispatch (v : pyobject) device :
  structure_of is_none v = true ->
  torch_to_jax v = Ok v /\ jax_to_torch dispatch v device = Ok v.
Proof.
  induction v using pyobject_nested_ind; intros Hs;
    try (simpl in Hs; discriminate); try (split; reflexivity).
  - (* mapping *)
    apply structure_of_mapping in Hs as (Hc & Hnd & Hstr & Hall).
    assert (H1 : Forall (fun kv => torch_to_jax (snd kv) = Ok (snd kv)) items).
    { rewrite Forall_forall in *. intros kv Hin.
      apply (H kv Hin). apply Hall. exact Hin. }
    assert (H2 : Forall (fun kv => jax_to_torch dispatch (snd kv) device
                                   = Ok (snd kv)) items).
    { rewrite Forall_forall in *. intros kv Hin.
      apply (H kv Hin). apply Hall. exact Hin. }
    split; simpl.
    + unfold _mapping_torch_to_jax.
      rewrite (Forall_fixed_items torch_to_jax items H1 Hnd). simpl.
      apply call_kwargs_dict; assumption.
    + unfold _jax_mapping_to_torch. rewrite jax_to_torch_items_eq.
      rewrite (Forall_fixed_items (fun v => jax_to_torch dispatch v device)
                 items H2 Hnd). simpl.
      apply call_kwargs_dict; assumption.
  - (* namedtuple *)
    simpl in Hs. rewrite forallb_forall in Hs.
    split; simpl.
    + unfold _iterable_torch_to_jax. simpl.
      rewrite Forall_fixed_consume; [reflexivity|].
      rewrite Forall_forall in *. intros x Hin. apply (H x Hin), Hs, Hin.
    + unfold _jax_iterable_to_torch. simpl.
      rewrite (Forall_fixed_consume (fun v => jax_to_torch dispatch v device));
        [reflexivity|].
      rewrite Forall_forall in *. intros x Hin. apply (H x Hin), Hs, Hin.
  - (* list, tuple *)
    simpl in Hs. rewrite forallb_forall in Hs.
    split; simpl.
    + unfold _iterable_torch_to_jax. simpl.
      rewrite Forall_fixed_consume; [reflexivity|].
      rewrite Forall_forall in *. intros x Hin. apply (H x Hin), Hs, Hin.
    + unfold _jax_iterable_to_torch. simpl.
      rewrite (Forall_fixed_consume (fun v => jax_to_torch dispatch v device));
        [reflexivity|].
      rewrite Forall_forall in *. intros x Hin. apply (H x Hin), Hs, Hin.
Qed.

Lemma tensor_free_structure_unchanged_witness :
  jax_to_torch ArrayRule
    (VMapping Dict [(KStr "extra", VSeq PyList []); (KStr "next", VNone)])
    (Some (DeviceStr "cuda"))
  = Ok (VMapping Dict [(KStr "extra", VSeq PyList []); (KStr "next", VNone)]).
Proof.
  destruct (tensor_free_structure_unchanged ArrayRule
              (VMapping Dict
                 [(KStr "extra", VSeq PyList []); (KStr "next", VNone)])
              (Some (DeviceStr "cuda")) eq_refl) as [_ H].
  exact H.
Defined.

(** * Further properties of the wrapper *)

(** ** step *)

(** A step that returns has converted the action, stepped the wrapped
    environment once with the converted action, and converted or coerced
    each of the five values it got back. *)
Theorem step_ok_inversion {S : Type} dispatch float_
  (self : JaxToTorch S) action st out st' :
  step dispatch float_ self action st = (Ok out, st') ->
  exists jax_action obs reward terminated truncated info
         obs' reward' terminated' truncated' info',
    torch_to_jax action = Ok jax_action /\
    env_step (env self) jax_action st
      = (Ok (obs, reward, terminated, truncated, info), st') /\
    jax_to_torch dispatch obs (device self) = Ok obs' /\
    float_ reward = Ok reward' /\
    bool_ terminated = Ok terminated' /\
    bool_ truncated = Ok truncated' /\
    jax_to_torch dispatch info (device self) = Ok info' /\
    out = VSeq PyTuple [obs'; VNum (NFloat reward'); VNum (NBool terminated');
                        VNum (NBool truncated'); info'].
Proof.
  unfold step.
  destruct (torch_to_jax action) as [a|e]; [|discriminate].
  destruct (env_step (env self) a st) as [[[[[[obs rew] te] tr] info]|e] st1]
    eqn:Henv; [|discriminate].
  destruct (jax_to_torch dispatch obs (device self)) as [o|e] eqn:Ho;
    simpl; [|discriminate].
  destruct (float_ rew) as [r|e] eqn:Hr; simpl; [|discriminate].
  destruct (bool_ te) as [bte|e] eqn:Hte; simpl; [|discriminate].
  destruct (bool_ tr) as [btr|e] eqn:Htr; simpl; [|discriminate].
  destruct (jax_to_torch dispatch info (device self)) as [i|e] eqn:Hi;
    simpl; [|discriminate].
  intros H. injection H as <- <-.
  exists a, obs, rew, te, tr, info, o, r, bte, btr, i.
  repeat split; assumption.
Qed.

Lemma step_ok_inversion_witness :
  exists jax_action,
    torch_to_jax (VTorch (mk_tensor (mk_ndarray [1%nat] [NFloat f_half] "cpu")
                            false false))
    = Ok jax_action.
Proof.
  destruct (step_ok_inversion ArrayRule float_of_scalar
              (mk_JaxToTorch echo_env None)
              (VTorch (mk_tensor (mk_ndarray [1%nat] [NFloat f_half] "cpu")
                         false false)) tt
              _ tt eq_refl)
    as (a & _ & _ & _ & _ & _ & _ & _ & _ & _ & _ & Ha & _).
  exists a. exact Ha.
Defined.

(** An action that does not convert makes [step] raise what [torch_to_jax]
    raises, and the wrapped environment is not stepped: its state is the one
    before the call. *)
Theorem step_bad_action_leaves_env {S : Type} dispatch float_
  (self : JaxToTorch S) action st e :
  torch_to_jax action = Raise e ->
  step dispatch float_ self action st = (Raise e, st).
Proof.
  intros H. unfold step. rewrite H. reflexivity.
Qed.

Lemma step_bad_action_leaves_env_witness :
  step ArrayRule float_of_scalar (mk_JaxToTorch echo_env None)
    (VObject "socket.socket") tt
  = (Raise (Exception
       "No known conversion for Torch type (<class 'socket.socket'>) to Jax registered. Report as issue on github."),
     tt).
Proof.
  apply (step_bad_action_leaves_env ArrayRule float_of_scalar
           (mk_JaxToTorch echo_env None) (VObject "socket.socket") tt).
  reflexivity.
Defined.

(** Once the wrapped environment has stepped, a failure while converting
    what it returned does not undo the step: [step] raises with the
    environment in its new state.  The five values are handled in the order
    observation, reward, terminated, truncated, info, and the first failure
    is the one raised. *)
Theorem step_fails_after_env_stepped {S : Type} dispatch float_
  (self : JaxToTorch S) action st jax_action
  obs reward terminated truncated info st' e :
  torch_to_jax action = Ok jax_action ->
  env_step (env self) jax_action st
    = (Ok (obs, reward, terminated, truncated, info), st') ->
  (jax_to_torch dispatch obs (device self) = Raise e ->
   step dispatch float_ self action st = (Raise e, st')) /\
  (forall obs',
     jax_to_torch dispatch obs (device self) = Ok obs' ->
     float_ reward = Raise e ->
     step dispatch float_ self action st = (Raise e, st')) /\
  (forall obs' reward',
     jax_to_torch dispatch obs (device self) = Ok obs' ->
     float_ reward = Ok reward' ->
     bool_ terminated = Raise e ->
     step dispatch float_ self action st = (Raise e, st')) /\
  (forall obs' reward' terminated',
     jax_to_torch dispatch obs (device self) = Ok obs' ->
     float_ reward = Ok reward' ->
     bool_ terminated = Ok terminated' ->
     bool_ truncated = Raise e ->
     step dispatch float_ self action st = (Raise e, st')) /\
  (forall obs' reward' terminated' truncated',
     jax_to_torch dispatch obs (device self) = Ok obs' ->
     float_ reward = Ok reward' ->
     bool_ terminated = Ok terminated' ->
     bool_ truncated = Ok truncated' ->
     jax_to_torch dispatch info (device self) = Raise e ->
     step dispatch float_ self action st = (Raise e, st')).
Proof.
  intros Ha Henv. unfold step. rewrite Ha, Henv.
  split; [|split; [|split; [|split]]].
  - intros Ho. rewrite Ho. reflexivity.
  - intros o Ho Hr. rewrite Ho, Hr. reflexivity.
  - intros o r Ho Hr Hte. rewrite Ho, Hr, Hte. reflexivity.
  - intros o r te Ho Hr Hte Htr. rewrite Ho, Hr, Hte, Htr. reflexivity.
  - intros o r te tr Ho Hr Hte Htr Hi. rewrite Ho, Hr, Hte, Htr, Hi.
    reflexivity.
Qed.

Lemma step_fails_after_env_stepped_witness :
  step ArrayRule float_of_scalar (mk_JaxToTorch counting_env None) VNone tt
  = (Raise (Exception
       "No known conversion for Jax type (<class 'int'>) to PyTorch registered. Report as issue on github."),
     tt).
Proof.
  destruct (step_fails_after_env_stepped ArrayRule float_of_scalar
              (mk_JaxToTorch counting_env None) VNone tt VNone
              VNone (VNum (NFloat f_one)) (VNum (NBool false))
              (VNum (NBool false))
              (VMapping Dict [(KStr "steps", VNum (NInt 3))]) tt
              (Exception
                 "No known conversion for Jax type (<class 'int'>) to PyTorch registered. Report as issue on github.")
              eq_refl eq_refl) as (_ & _ & _ & _ & H).
  apply (H VNone f_one false false); reflexivity.
Defined.

(** ** reset *)

(** [options] whose truth value is false (the test [if options:]) reach the
    wrapped environment as they are, without a call of [torch_to_jax]: not
    only [None] and the empty dict, also [0], the empty string or an empty
    list. *)
Theorem reset_falsy_options_unconverted {S : Type} dispatch
  (self : JaxToTorch S) seed options st :
  bool_ options = Ok false ->
  reset dispatch self seed options st
  = match env_reset (env self) seed options st with
    | (Raise e, st') => (Raise e, st')
    | (Ok r, st') => (jax_to_torch dispatch r (device self), st')
    end.
Proof.
  intros Hb. unfold reset. rewrite Hb. reflexivity.
Qed.

Lemma reset_falsy_options_unconverted_witness :
  reset ArrayRule (mk_JaxToTorch echo_env None) None (VNum (NInt 0)) tt
  = (Raise (Exception
       "No known conversion for Jax type (<class 'int'>) to PyTorch registered. Report as issue on github."),
     tt).
Proof.
  rewrite (reset_falsy_options_unconverted ArrayRule
             (mk_JaxToTorch echo_env None) None (VNum (NInt 0)) tt eq_refl).
  reflexivity.
Defined.

(** [options] that cannot be tested for truth, or that are true and do not
    convert, make [reset] raise before the wrapped environment is reset:
    its state is the one before the call. *)
Theorem reset_bad_options_leaves_env {S : Type} dispatch
  (self : JaxToTorch S) seed options st e :
  bool_ options = Raise e \/
  (bool_ options = Ok true /\ torch_to_jax options = Raise e) ->
  reset dispatch self seed options st = (Raise e, st).
Proof.
  intros [Hb|[Hb Hc]]; unfold reset; rewrite Hb; [reflexivity|].
  rewrite Hc. reflexivity.
Qed.

Lemma reset_bad_options_leaves_env_witness :
  reset ArrayRule (mk_JaxToTorch echo_env None) (Some 7)
    (VMapping Dict [(KInt 1, VNone)]) tt
  = (Raise TypeError, tt).
Proof.
  apply (reset_bad_options_leaves_env ArrayRule
           (mk_JaxToTorch echo_env None) (Some 7)
           (VMapping Dict [(KInt 1, VNone)]) tt TypeError).
  right. split; reflexivity.
Defined.

(** A reset that returns has reset the wrapped environment once, with the
    unchanged seed and with options that are the given ones when false and
    their conversion when true, and returns the conversion of what the
    environment returned. *)
Theorem reset_ok_inversion {S : Type} dispatch
  (self : JaxToTorch S) seed options st out st' :
  reset dispatch self seed options st = (Ok out, st') ->
  exists b options' r,
    bool_ options = Ok b /\
    (if b then torch_to_jax options = Ok options' else options' = options) /\
    env_reset (env self) seed options' st = (Ok r, st') /\
    jax_to_torch dispatch r (device self) = Ok out.
Proof.
  unfold reset.
  destruct (bool_ options) as [b|e]; [|discriminate].
  destruct (if b then torch_to_jax options else Ok options) as [o'|e] eqn:Ho;
    [|discriminate].
  destruct (env_reset (env self) seed o' st) as [[r|e] st1] eqn:Henv;
    [|discriminate].
  intros H. injection H as H <-.
  exists b, o', r. split; [reflexivity|]. split.
  - destruct b; [exact Ho|]. injection Ho as <-. reflexivity.
  - split; [exact Henv|exact H].
Qed.

Lemma reset_ok_inversion_witness :
  exists b, bool_ (VMapping Dict [(KStr "k", VNone)]) = Ok b.
Proof.
  destruct (reset_ok_inversion ArrayRule (mk_JaxToTorch echo_env None)
              None (VMapping Dict [(KStr "k", VNone)]) tt _ tt eq_refl)
    as (b & _ & _ & Hb & _).
  exists b. exact Hb.
Defined.

(** ** Instances *)

Lemma sequence_preserved_witness :
  exists ys,
    VSeq PyTuple [VJax (mk_ndarray [] [NInt 1] jax_default_device); VNone]
    = VSeq PyTuple ys /\
    List.length ys = 2%nat.
Proof.
  destruct (sequence_preserved ArrayRule PyTuple [VNum (NInt 1); VNone] None
              (VSeq PyTuple
                 [VJax (mk_ndarray [] [NInt 1] jax_default_device); VNone]))
    as (_ & _ & H).
  apply H. left. reflexivity.
Defined.

Lemma array_placement_witness :
  jax_to_torch ArrayRule (VJax (mk_ndarray [1%nat] [NInt 5] "cpu:0"))
    (Some (DeviceStr "cuda:0"))
  = Ok (VTorch (mk_tensor (mk_ndarray [1%nat] [NInt 5] "cuda:0") false false)).
Proof.
  destruct (array_placement (mk_ndarray [1%nat] [NInt 5] "cpu:0")
              (Some (DeviceStr "cuda:0"))) as (H & _ & _).
  apply (H (DeviceStr "cuda:0")); reflexivity.
Defined.

Lemma converter_rejects_own_output_witness :
  torch_to_jax (VJax (mk_ndarray [1%nat] [NInt 5] "cpu")) = Raise TypeError.
Proof.
  destruct (converter_rejects_own_output ArrayRule
              (mk_tensor (mk_ndarray [1%nat] [NInt 5] "cpu") false false)
              (mk_ndarray [1%nat] [NInt 5] "cpu") None) as [H _].
  apply H. reflexivity.
Defined.
